(** * camera_capture: the CSI camera publisher node

    A shallow embedding of [camera_capture/camera_capture.py]: the
    [CameraPublisher] node with its two subscription handlers
    ([start_livestream_callback], [capture_snapshot_callback]), the timer
    handler ([timer_callback]), the module-level retention function
    [prevent_overflood_image], the pipeline descriptor [gstreamer_pipeline]
    and the topic names that [main] composes.

    Everything the node touches is explicit state: the capture handle, the
    node's timers, the two publishers, the logger and the image directory
    (its entries, and whether it can be written to). What OpenCV stores for a
    frame is left open: the encoder is a parameter of the program.
    Handlers are computations in a state-and-exception monad, since a Python
    handler may leave through an exception after having changed the node. *)

From Stdlib Require Import ZArith String Ascii List.
From stdpp Require Import gmap strings list fin_maps pretty.

Open Scope Z_scope.
Open Scope string_scope.

(** ** Python values *)

Module Py.

(** [str(n)] on a Python [int]: decimal digits, a leading dash when negative. *)
Definition str (n : Z) : string := pretty n.

(** Exceptions that the modelled code can meet. *)
Inductive exn : Type :=
| UnboundLocalError
| TypeError
| Cv2Error
| FileNotFoundError
| IsADirectoryError
| PermissionError.

Inductive result (A : Type) : Type :=
| Ok (a : A)
| Raise (e : exn).
Arguments Ok {A} a.
Arguments Raise {A} e.

(** Reading a local name that no assignment of this call has bound yet. *)
Definition load_local {A : Type} (v : option A) : result A :=
  match v with
  | Some a => Ok a
  | None => Raise UnboundLocalError
  end.

Definition is_ok {A : Type} (r : result A) : bool :=
  match r with Ok _ => true | Raise _ => false end.

End Py.
Export Py.

(** ** std_msgs and sensor_msgs *)

(** [std_msgs.msg.Bool] *)
Record Bool : Type := { data : bool }.

Definition repr_Bool (m : Bool) : string :=
  "std_msgs.msg.Bool(data=" ++ (if data m then "True" else "False") ++ ")".

(** A frame as OpenCV hands it over: the pixel bytes. *)
Definition Frame : Type := list Z.

(** [sensor_msgs.msg.Image], with the one header field the node writes. *)
Record Image : Type := {
  frame_id : string;
  encoding : string;
  pixels : Frame
}.

Definition set_frame_id (s : string) (m : Image) : Image :=
  {| frame_id := s; encoding := encoding m; pixels := pixels m |}.

(** [CvBridge.cv2_to_imgmsg]: refuses anything that is not an array; a fresh
    message has an empty [header.frame_id]. *)
Definition cv2_to_imgmsg (frame : option Frame) (enc : string) : result Image :=
  match frame with
  | Some f => Ok {| frame_id := ""; encoding := enc; pixels := f |}
  | None => Raise TypeError
  end.

(** ** cv2.VideoCapture *)

Inductive CapProp : Type := CAP_PROP_FRAME_HEIGHT | CAP_PROP_FRAME_WIDTH.

(** The capture handle. [feed] is what the device will deliver to the next
    reads: [Some f] a frame, [None] a read that yields no data. *)
Record VideoCapture : Type := {
  opened : bool;
  frame_height : Z;
  frame_width : Z;
  feed : list (option Frame)
}.

Module Cap.

Definition isOpened (c : VideoCapture) : bool := opened c.

(** [cap.set(prop, value)]: a handle that is not opened has no backend to
    take the request and is left as it is. *)
Definition set (p : CapProp) (v : Z) (c : VideoCapture) : VideoCapture :=
  if opened c then
    match p with
    | CAP_PROP_FRAME_HEIGHT =>
        {| opened := opened c; frame_height := v;
           frame_width := frame_width c; feed := feed c |}
    | CAP_PROP_FRAME_WIDTH =>
        {| opened := opened c; frame_height := frame_height c;
           frame_width := v; feed := feed c |}
    end
  else c.

(** [cap.read()]: [(ret, frame)]; [(False, None)] when nothing was grabbed. *)
Definition read (c : VideoCapture) : (bool * option Frame) * VideoCapture :=
  if opened c then
    match feed c with
    | Some f :: rest =>
        ((true, Some f),
         {| opened := opened c; frame_height := frame_height c;
            frame_width := frame_width c; feed := rest |})
    | None :: rest =>
        ((false, None),
         {| opened := opened c; frame_height := frame_height c;
            frame_width := frame_width c; feed := rest |})
    | [] => ((false, None), c)
    end
  else ((false, None), c).

End Cap.

(** ** rclpy: timers and logger *)

Inductive Severity : Type := DEBUG | INFO | ERROR.

(** The callables the node hands to [create_timer]. *)
Inductive Callback : Type := Timer_callback.

(** A timer of the node. [period_ms] is the period in milliseconds. *)
Record Timer : Type := {
  timer_handle : nat;
  period_ms : Z;
  callback : Callback;
  canceled : bool
}.

Definition cancel_timer (t : Timer) : Timer :=
  {| timer_handle := timer_handle t; period_ms := period_ms t;
     callback := callback t; canceled := true |}.

(** ** The node and its surroundings *)

(** The bytes of a stored file. *)
Definition FileBytes : Type := list Z.

(** What a path names: a regular file with its bytes, or a directory. *)
Inductive Entry : Type :=
| RegularFile (content : FileBytes)
| Directory.

Definition is_directory (e : option Entry) : bool :=
  match e with Some Directory => true | _ => false end.

(** The settings file [config/camera_capture_settings.json], read once when
    the module is loaded. *)
Record Settings : Type := {
  framerate : Z;
  capture_height_livestream : Z;
  capture_width_livestream : Z;
  capture_height_snapshot : Z;
  capture_width_snapshot : Z;
  image_location : string
}.

(** [CameraPublisher] together with the image directory it writes to:
    [disk] maps a path to what it names, and [dir_writable] tells whether the
    image directory exists and the process may create, replace and remove
    entries in it. *)
Record World : Type := {
  cap : VideoCapture;
  image_counter : Z;
  timers : list Timer;
  next_handle : nat;
  pub_cam_livestream : list Image;
  pub_cam_snapshot : list Image;
  logger : list (Severity * string);
  disk : gmap string Entry;
  dir_writable : bool
}.

Definition with_cap (c : VideoCapture) (w : World) : World :=
  {| cap := c; image_counter := image_counter w; timers := timers w;
     next_handle := next_handle w;
     pub_cam_livestream := pub_cam_livestream w;
     pub_cam_snapshot := pub_cam_snapshot w; logger := logger w;
     disk := disk w; dir_writable := dir_writable w |}.

Definition with_image_counter (n : Z) (w : World) : World :=
  {| cap := cap w; image_counter := n; timers := timers w;
     next_handle := next_handle w;
     pub_cam_livestream := pub_cam_livestream w;
     pub_cam_snapshot := pub_cam_snapshot w; logger := logger w;
     disk := disk w; dir_writable := dir_writable w |}.

Definition with_timers (ts : list Timer) (n : nat) (w : World) : World :=
  {| cap := cap w; image_counter := image_counter w; timers := ts;
     next_handle := n;
     pub_cam_livestream := pub_cam_livestream w;
     pub_cam_snapshot := pub_cam_snapshot w; logger := logger w;
     disk := disk w; dir_writable := dir_writable w |}.

Definition with_pub_cam_livestream (l : list Image) (w : World) : World :=
  {| cap := cap w; image_counter := image_counter w; timers := timers w;
     next_handle := next_handle w;
     pub_cam_livestream := l;
     pub_cam_snapshot := pub_cam_snapshot w; logger := logger w;
     disk := disk w; dir_writable := dir_writable w |}.

Definition with_pub_cam_snapshot (l : list Image) (w : World) : World :=
  {| cap := cap w; image_counter := image_counter w; timers := timers w;
     next_handle := next_handle w;
     pub_cam_livestream := pub_cam_livestream w;
     pub_cam_snapshot := l; logger := logger w;
     disk := disk w; dir_writable := dir_writable w |}.

Definition with_logger (l : list (Severity * string)) (w : World) : World :=
  {| cap := cap w; image_counter := image_counter w; timers := timers w;
     next_handle := next_handle w;
     pub_cam_livestream := pub_cam_livestream w;
     pub_cam_snapshot := pub_cam_snapshot w; logger := l;
     disk := disk w; dir_writable := dir_writable w |}.

Definition with_disk (d : gmap string Entry) (w : World) : World :=
  {| cap := cap w; image_counter := image_counter w; timers := timers w;
     next_handle := next_handle w;
     pub_cam_livestream := pub_cam_livestream w;
     pub_cam_snapshot := pub_cam_snapshot w; logger := logger w;
     disk := d; dir_writable := dir_writable w |}.

(** ** The handler monad: state, and exceptions that keep the state *)

Definition M (A : Type) : Type := World -> result A * World.

Definition ret {A : Type} (a : A) : M A := fun w => (Ok a, w).

Definition bind {A B : Type} (m : M A) (k : A -> M B) : M B :=
  fun w =>
    match m w with
    | (Ok a, w') => k a w'
    | (Raise e, w') => (Raise e, w')
    end.

Definition raise {A : Type} (e : exn) : M A := fun w => (Raise e, w).

Definition lift {A : Type} (r : result A) : M A := fun w => (r, w).

(** [try: body except ...: handler]; the handler re-raises what it does not
    catch. *)
Definition try_except {A : Type} (body : M A) (handler : exn -> M A) : M A :=
  fun w =>
    match body w with
    | (Ok a, w') => (Ok a, w')
    | (Raise e, w') => handler e w'
    end.

Declare Scope py_scope.
Delimit Scope py_scope with py.
Notation "x <- c1 ;; c2" := (bind c1 (fun x => c2))
  (at level 100, c1 at next level, right associativity) : py_scope.
Notation "c1 ;; c2" := (bind c1 (fun _ => c2))
  (at level 100, right associativity) : py_scope.
Open Scope py_scope.

(** *** Primitive actions on the world *)

Definition cap_set (p : CapProp) (v : Z) : M unit :=
  fun w => (Ok tt, with_cap (Cap.set p v (cap w)) w).

Definition cap_isOpened : M bool :=
  fun w => (Ok (Cap.isOpened (cap w)), w).

Definition cap_read : M (bool * option Frame) :=
  fun w => let '(r, c) := Cap.read (cap w) in (Ok r, with_cap c w).

Definition log (s : Severity) (msg : string) : M unit :=
  fun w => (Ok tt, with_logger (logger w ++ [(s, msg)]) w).

(** [Node.create_timer]: the node keeps the new timer; the caller gets it. *)
Definition create_timer (period : Z) (cb : Callback) : M nat :=
  fun w =>
    let h := next_handle w in
    (Ok h,
     with_timers
       (timers w ++ [{| timer_handle := h; period_ms := period;
                        callback := cb; canceled := false |}])
       (S h) w).

(** [Timer.cancel] *)
Definition timer_cancel (h : nat) : M unit :=
  fun w =>
    (Ok tt,
     with_timers
       (map (fun t => if Nat.eqb (timer_handle t) h then cancel_timer t else t)
            (timers w))
       (next_handle w) w).

(** [Timer.destroy]: the node forgets the timer. *)
Definition timer_destroy (h : nat) : M unit :=
  fun w =>
    (Ok tt,
     with_timers
       (List.filter (fun t => negb (Nat.eqb (timer_handle t) h)) (timers w))
       (next_handle w) w).

Definition publish_livestream (m : Image) : M unit :=
  fun w => (Ok tt, with_pub_cam_livestream (pub_cam_livestream w ++ [m]) w).

Definition publish_snapshot (m : Image) : M unit :=
  fun w => (Ok tt, with_pub_cam_snapshot (pub_cam_snapshot w ++ [m]) w).

(** [cv2.imwrite(path, frame)]: an empty image is an OpenCV error. Otherwise
    the call returns whether the file was written: it stores the encoding
    [enc] of the frame when the directory can be written to and the path
    does not name a directory, and else leaves the disk as it is and returns
    [False]. *)
Definition imwrite (enc : Frame -> FileBytes) (path : string)
    (frame : option Frame) : M bool :=
  fun w =>
    match frame with
    | Some f =>
        if dir_writable w && negb (is_directory (disk w !! path)) then
          (Ok true, with_disk (<[path := RegularFile (enc f)]> (disk w)) w)
        else (Ok false, w)
    | None => (Raise Cv2Error, w)
    end.

(** [os.path.exists]: true of files and of directories. *)
Definition path_exists (path : string) : M bool :=
  fun w => (Ok (bool_decide (is_Some (disk w !! path))), w).

(** [os.remove]: raises when the path names nothing, names a directory, or
    names a file in a directory that cannot be written to. *)
Definition os_remove (path : string) : M unit :=
  fun w =>
    match disk w !! path with
    | None => (Raise FileNotFoundError, w)
    | Some Directory => (Raise IsADirectoryError, w)
    | Some (RegularFile _) =>
        if dir_writable w then (Ok tt, with_disk (delete path (disk w)) w)
        else (Raise PermissionError, w)
    end.

Definition get_image_counter : M Z := fun w => (Ok (image_counter w), w).

Definition set_image_counter (n : Z) : M unit :=
  fun w => (Ok tt, with_image_counter n w).

Definition newline : string := String (ascii_of_nat 10) "".

(** ** The program *)

Module camera_capture.
Section CameraCapture.

Variable json_settings : Settings.

(** The encoder that [cv2.imwrite] applies for a path ending in [.jpg]:
    from a frame to the bytes of a JPEG file. It is lossy, and nothing is
    assumed about it. *)
Variable imencode : Frame -> FileBytes.

(** [f"{image_location}/image{n}.jpg"] *)
Definition image_path (n : Z) : string :=
  image_location json_settings ++ "/image" ++ str n ++ ".jpg".

(** [prevent_overflood_image(img_number)] *)
Definition prevent_overflood_image (img_number : Z) : M unit :=
  if (img_number >? 4)%Z then
    let item_to_delete := image_path (img_number - 5) in
    ex <- path_exists item_to_delete ;;
    if ex then os_remove item_to_delete else ret tt
  else ret tt.

(** What [prevent_overflood_image n] returns and leaves on disk, as a
    function of the disk before; [prevent_overflood_image_eq] relates the
    two. *)
Definition eviction (n : Z) (wr : bool) (d : gmap string Entry)
    : result unit * gmap string Entry :=
  if (n >? 4)%Z then
    match d !! image_path (n - 5) with
    | None => (Ok tt, d)
    | Some Directory => (Raise IsADirectoryError, d)
    | Some (RegularFile _) =>
        if wr then (Ok tt, delete (image_path (n - 5)) d)
        else (Raise PermissionError, d)
    end
  else (Ok tt, d).

(** The disk after an eviction that meets no obstacle. *)
Definition evicted (n : Z) (d : gmap string Entry) : gmap string Entry :=
  if (n >? 4)%Z then delete (image_path (n - 5)) d else d.

(** The disk after [cv2.imwrite] of bytes [b] to path [p]. *)
Definition written (p : string) (b : FileBytes) (wr : bool)
    (d : gmap string Entry) : gmap string Entry :=
  if wr && negb (is_directory (d !! p)) then <[p := RegularFile b]> d else d.

(** [CameraPublisher.timer_callback] *)
Definition timer_callback : M unit :=
  rf <- cap_read ;;
  let '(_, frame) := rf in
  msg_image <- lift (cv2_to_imgmsg frame "bgr8") ;;
  publish_livestream msg_image.

(** [CameraPublisher.start_livestream_callback]. The name [timer] is a
    local of the call: it is unbound when the call starts. *)
Definition start_livestream_callback (topic_msg : Bool) : M unit :=
  cap_set CAP_PROP_FRAME_HEIGHT (capture_height_livestream json_settings) ;;
  cap_set CAP_PROP_FRAME_WIDTH (capture_width_livestream json_settings) ;;
  log INFO "message received on topic livestream" ;;
  log DEBUG ("Incoming message on topic livestream " ++ newline
             ++ "with message: " ++ repr_Bool topic_msg) ;;
  let timer_period := 30 in
  let timer : option nat := None in
  is_open <- cap_isOpened ;;
  if is_open then
    log INFO "camera is available" ;;
    if data topic_msg then
      log INFO "starting livestream" ;;
      timer <- create_timer timer_period Timer_callback ;;
      ret tt
    else if negb (data topic_msg) then
      log INFO "stopping livestream" ;;
      try_except
        (t <- lift (load_local timer) ;;
         timer_cancel t ;;
         timer_destroy t)
        (fun e =>
           match e with
           | UnboundLocalError => log ERROR "timer was is not defined)"
           | _ => raise e
           end)
    else
      log DEBUG "can't stop livestream because livestream is already stopped"
  else
    log INFO "camera not available".

(** [CameraPublisher.capture_snapshot_callback] *)
Definition capture_snapshot_callback (topic_msg : Bool) : M unit :=
  log INFO ("message received on topic snapshot " ++ newline
            ++ "with message: " ++ repr_Bool topic_msg ++ newline
            ++ "with data :" ++ (if data topic_msg then "True" else "False")) ;;
  cap_set CAP_PROP_FRAME_HEIGHT (capture_height_snapshot json_settings) ;;
  cap_set CAP_PROP_FRAME_WIDTH (capture_width_snapshot json_settings) ;;
  is_open <- cap_isOpened ;;
  (if is_open then
     rf <- cap_read ;;
     let '(_, frame) := rf in
     msg_image <- lift (cv2_to_imgmsg frame "bgr8") ;;
     c <- get_image_counter ;;
     let msg_image := set_frame_id (str c) msg_image in
     imwrite imencode (image_path c) frame ;;
     log INFO ("image saved at image" ++ str c ++ ".jpg") ;;
     publish_snapshot msg_image ;;
     set_image_counter (c + 1) ;;
     c' <- get_image_counter ;;
     prevent_overflood_image c'
   else
     log INFO "camera not available") ;;
  cap_set CAP_PROP_FRAME_HEIGHT (capture_height_livestream json_settings) ;;
  cap_set CAP_PROP_FRAME_WIDTH (capture_width_livestream json_settings).

(** [CameraPublisher.__init__]: what the constructor leaves, given the
    handle that [cv2.VideoCapture(gstreamer_pipeline())] returned and the
    image directory as it is found: whether it can be written to, and what
    it holds. *)
Definition init (c : VideoCapture) (wr : bool) (d : gmap string Entry)
    : World :=
  {| cap := c; image_counter := 0; timers := []; next_handle := 0%nat;
     pub_cam_livestream := []; pub_cam_snapshot := []; logger := [];
     disk := d; dir_writable := wr |}.

(** *** The executor ([rclpy.spin]) *)

(** What the executor delivers to the node: a message on one of the two
    subscribed topics, or the passing of one timer period. *)
Inductive Event : Type :=
| Livestream_state (m : Bool)
| Snapshot_trigger (m : Bool)
| Tick.

Definition run_callback (cb : Callback) : M unit :=
  match cb with
  | Timer_callback => timer_callback
  end.

(** The timers that fire: kept by the node and not cancelled. *)
Definition active_timers (w : World) : list Timer :=
  List.filter (fun t => negb (canceled t)) (timers w).

Fixpoint fire (ts : list Timer) : M unit :=
  match ts with
  | [] => ret tt
  | t :: rest => run_callback (callback t) ;; fire rest
  end.

Definition dispatch (e : Event) : M unit :=
  match e with
  | Livestream_state m => start_livestream_callback m
  | Snapshot_trigger m => capture_snapshot_callback m
  | Tick => fun w => fire (active_timers w) w
  end.

(** [rclpy.spin]: events in arrival order, each handler run to completion;
    an exception that leaves a handler ends the spin. *)
Fixpoint spin (es : list Event) : M unit :=
  match es with
  | [] => ret tt
  | e :: rest => dispatch e ;; spin rest
  end.

(** *** Reading a run *)

Definition is_livestream (e : Event) : bool :=
  match e with Livestream_state _ => true | _ => false end.

Definition is_snapshot (e : Event) : bool :=
  match e with Snapshot_trigger _ => true | _ => false end.

(** A livestream-state message that asks to start. *)
Definition is_start (e : Event) : bool :=
  match e with Livestream_state m => data m | _ => false end.

Definition starts (es : list Event) : nat := length (List.filter is_start es).

(** The files that the counter alone accounts for: [image{i}.jpg] for the
    last four values of [i] below the counter, and nothing else. *)
Definition window (w : World) : Prop :=
  0 <= image_counter w /\
  forall p : string,
    is_Some (disk w !! p) <->
    exists i : Z,
      p = image_path i /\ 0 <= i /\ image_counter w - 4 <= i < image_counter w.

(** The image directory can be written to and holds no directory. *)
Definition healthy (w : World) : Prop :=
  dir_writable w = true /\ forall p : string, disk w !! p <> Some Directory.

(** The snapshot messages carry the counter values from 0 on as [frame_id],
    in order. *)
Definition numbered (w : World) : Prop :=
  0 <= image_counter w
  /\ frame_id <$> pub_cam_snapshot w = str <$> seqZ 0 (image_counter w).

(** The file of each of the last four snapshot messages holds the encoding
    of the frame that the message carries. *)
Definition filed (w : World) : Prop :=
  forall (i : nat) (msg : Image),
    pub_cam_snapshot w !! i = Some msg ->
    image_counter w - 4 <= Z.of_nat i ->
    disk w !! image_path (Z.of_nat i)
    = Some (RegularFile (imencode (pixels msg))).

End CameraCapture.
End camera_capture.
Export camera_capture.

(** ** A configuration to run the node on *)

Definition example_settings : Settings :=
  {| framerate := 30;
     capture_height_livestream := 480; capture_width_livestream := 640;
     capture_height_snapshot := 1080; capture_width_snapshot := 1920;
     image_location := "/home/images" |}.

(** An opened handle at the pipeline's resolution that will deliver [n]
    frames, the [i]-th holding the single byte [i]. *)
Definition example_cap (n : nat) : VideoCapture :=
  {| opened := true; frame_height := 1080; frame_width := 1920;
     feed := map (fun i => Some [Z.of_nat i]) (seq 0 n) |}.

(** A handle whose device could not be opened. *)
Definition closed_cap : VideoCapture :=
  {| opened := false; frame_height := 0; frame_width := 0; feed := [] |}.

(** An opened handle whose next read yields no data. *)
Definition starved_cap : VideoCapture :=
  {| opened := true; frame_height := 480; frame_width := 640; feed := [None] |}.

(** An encoder to run the node with: the JPEG start-of-image marker followed
    by the pixel bytes halved. Any function would do. *)
Definition example_imencode (f : Frame) : FileBytes :=
  255 :: 216 :: map (fun x => x / 2) f.

Definition msg_true : Bool := {| data := true |}.
Definition msg_false : Bool := {| data := false |}.

(** ** The device pipeline and the topic names *)

(** [gstreamer_pipeline(framerate)]: the descriptor handed to
    [cv2.VideoCapture]. *)
Definition gstreamer_pipeline (framerate : string) : string :=
  "nvarguscamerasrc ! "
  ++ "video/x-raw(memory:NVMM), "
  ++ ("width=(int)" ++ str 1920 ++ ", height=(int)" ++ str 1080 ++ ", ")
  ++ ("format=(string)NV12, framerate=(fraction)" ++ framerate ++ "/1 ! ")
  ++ "nvvidconv ! "
  ++ "video/x-raw, format=(string)BGRx ! "
  ++ "videoconvert ! "
  ++ "video/x-raw, format=(string)BGR ! "
  ++ "appsink".

(** The default argument, [str(json_settings["framerate"])]. *)
Definition gstreamer_pipeline_default (json_settings : Settings) : string :=
  gstreamer_pipeline (str (framerate json_settings)).

(** The topic fragments of the settings file that [main] reads. *)
Record TopicSettings : Type := {
  publish_topic_camera : string;
  camera_id : string;
  publish_topic_livestream : string;
  trigger_topic_livestream : string;
  publish_topic_snapshot : string;
  trigger_topic_snapshot : string
}.

(** The keyword arguments of [CameraPublisher(...)]. *)
Record Topics : Type := {
  livestream_state_topic : string;
  snapshot_trigger_topic : string;
  publish_livestream_topic : string;
  publish_snapshot_topic : string
}.

(** [main], up to the construction of the node: the four topic names. *)
Definition main_topics (s : TopicSettings) : Topics :=
  let cam_0_base := publish_topic_camera s ++ camera_id s in
  let livestream_state_topic :=
    publish_topic_livestream s ++ trigger_topic_livestream s in
  let snapshot_trigger_topic :=
    publish_topic_snapshot s ++ trigger_topic_snapshot s in
  let publish_livestream_topic := publish_topic_livestream s in
  let publish_snapshot_topic := publish_topic_snapshot s in
  {| livestream_state_topic := cam_0_base ++ livestream_state_topic;
     snapshot_trigger_topic := cam_0_base ++ snapshot_trigger_topic;
     publish_livestream_topic := cam_0_base ++ publish_livestream_topic;
     publish_snapshot_topic := cam_0_base ++ publish_snapshot_topic |}.

Definition example_topics : TopicSettings :=
  {| publish_topic_camera := "/camera"; camera_id := "0";
     publish_topic_livestream := "/livestream";
     trigger_topic_livestream := "/state";
     publish_topic_snapshot := "/snapshot";
     trigger_topic_snapshot := "/trigger" |}.

(** The livestream message that [timer_callback] builds from a frame. *)
Definition livestream_image (f : Frame) : Image :=
  {| frame_id := ""; encoding := "bgr8"; pixels := f |}.

(** * Properties *)

(** ** Record and string facts *)

Lemma with_disk_id (w : World) : with_disk (disk w) w = w.
Proof. by destruct w. Qed.

Lemma with_cap_id (w : World) : with_cap (cap w) w = w.
Proof. by destruct w. Qed.

Lemma set_closed (p : CapProp) (v : Z) (c : VideoCapture) :
  opened c = false -> Cap.set p v c = c.
Proof. intros H. unfold Cap.set. by rewrite H. Qed.

Lemma set_opened (p : CapProp) (v : Z) (c : VideoCapture) :
  opened (Cap.set p v c) = opened c.
Proof. unfold Cap.set. by destruct (opened c) eqn:E, p. Qed.

Lemma set_feed (p : CapProp) (v : Z) (c : VideoCapture) :
  feed (Cap.set p v c) = feed c.
Proof. unfold Cap.set. by destruct (opened c), p. Qed.

Lemma string_app_length (s t : string) :
  String.length (s ++ t) = (String.length s + String.length t)%nat.
Proof. induction s as [|a s IH]; simpl; [done | by rewrite IH]. Qed.

(** A common suffix can be cancelled. *)
Lemma string_app_inj_r (t s1 s2 : string) : s1 ++ t = s2 ++ t -> s1 = s2.
Proof.
  revert s2. induction s1 as [|a s1 IH]; intros [|b s2] H.
  - done.
  - apply (f_equal String.length) in H.
    rewrite !string_app_length in H. simpl in H. lia.
  - apply (f_equal String.length) in H.
    rewrite !string_app_length in H. simpl in H. lia.
  - simplify_eq/=. f_equal. by apply IH.
Qed.

Lemma str_inj (a b : Z) : str a = str b -> a = b.
Proof. unfold str. apply (inj pretty). Qed.

(** ** Tactics *)

(** Unfolds the primitive actions and the monad, so that a handler applied
    to an explicit world reduces to its result. *)
Ltac run_prims :=
  cbv beta iota zeta delta
    [bind ret raise lift try_except cap_set cap_isOpened cap_read log
     create_timer timer_cancel timer_destroy publish_livestream
     publish_snapshot imwrite path_exists os_remove get_image_counter
     set_image_counter with_cap with_image_counter with_timers
     with_pub_cam_livestream with_pub_cam_snapshot with_logger with_disk
     Cap.set Cap.read Cap.isOpened load_local cv2_to_imgmsg set_frame_id
     cap image_counter timers next_handle pub_cam_livestream
     pub_cam_snapshot logger disk dir_writable opened frame_height
     frame_width feed data];
  simpl.

(** Closes [~ In entry l] for an explicit list [l] whose entries differ
    from [entry] in the severity or in the text before any spliced value. *)
Ltac not_logged :=
  simpl; intros H;
  repeat (destruct H as [H|H]; [cbv in H; discriminate H|]);
  exact H.

Section Properties.

Variable json_settings : Settings.
Variable imencode : Frame -> FileBytes.

Abbreviation image_path := (image_path json_settings).
Abbreviation prevent_overflood_image := (prevent_overflood_image json_settings).
Abbreviation eviction := (eviction json_settings).
Abbreviation evicted := (evicted json_settings).
Abbreviation window := (window json_settings).
Abbreviation start_livestream_callback := (start_livestream_callback json_settings).
Abbreviation capture_snapshot_callback :=
  (capture_snapshot_callback json_settings imencode).
Abbreviation dispatch := (dispatch json_settings imencode).
Abbreviation spin := (spin json_settings imencode).

(** Distinct counters name distinct files. *)
Lemma image_path_inj (a b : Z) : image_path a = image_path b -> a = b.
Proof.
  unfold camera_capture.image_path. intros H.
  apply (inj (String.app _)) in H.
  apply (inj (String.app _)) in H.
  apply string_app_inj_r in H. by apply str_inj.
Qed.

(** ** The retention function *)

Lemma prevent_overflood_image_eq (n : Z) (w : World) :
  prevent_overflood_image n w =
    (fst (eviction n (dir_writable w) (disk w)),
     with_disk (snd (eviction n (dir_writable w) (disk w))) w).
Proof.
  unfold camera_capture.prevent_overflood_image, camera_capture.eviction.
  destruct (n >? 4)%Z; [|simpl; by rewrite with_disk_id].
  unfold bind, path_exists, os_remove, ret.
  destruct (disk w !! image_path (n - 5)) as [[b|]|] eqn:Hl;
    case_bool_decide as Hex; simpl.
  - rewrite Hl. destruct (dir_writable w); simpl; by rewrite ?with_disk_id.
  - destruct Hex. by eexists.
  - rewrite Hl. by rewrite with_disk_id.
  - destruct Hex. by eexists.
  - by destruct Hex as [? ?].
  - by rewrite with_disk_id.
Qed.

(** In a directory that can be written to and holds only files, writing and
    evicting meet no obstacle. *)
Lemma eviction_healthy (n : Z) (d : gmap string Entry) :
  (forall p, d !! p <> Some Directory) ->
  eviction n true d = (Ok tt, evicted n d).
Proof.
  intros Hd. unfold camera_capture.eviction, camera_capture.evicted.
  destruct (n >? 4)%Z; [|done].
  destruct (d !! image_path (n - 5)) as [[b|]|] eqn:Hl.
  - done.
  - by destruct (Hd (image_path (n - 5))).
  - by rewrite delete_id.
Qed.

Lemma written_healthy (p : string) (b : FileBytes) (d : gmap string Entry) :
  d !! p <> Some Directory ->
  written p b true d = <[p := RegularFile b]> d.
Proof.
  intros Hd. unfold written. by destruct (d !! p) as [[c|]|].
Qed.

Lemma written_lookup_ne (p q : string) (b : FileBytes) (wr : bool)
    (d : gmap string Entry) :
  p <> q -> written p b wr d !! q = d !! q.
Proof.
  intros Hne. unfold written.
  destruct (wr && negb (is_directory (d !! p))); [|done].
  by rewrite lookup_insert_ne.
Qed.

Lemma eviction_lookup_ne (n : Z) (q : string) (wr : bool)
    (d : gmap string Entry) :
  image_path (n - 5) <> q -> snd (eviction n wr d) !! q = d !! q.
Proof.
  intros Hne. unfold camera_capture.eviction.
  destruct (n >? 4)%Z; [|done].
  destruct (d !! image_path (n - 5)) as [[b|]|]; [|done..].
  destruct wr; [|done]. simpl. by rewrite lookup_delete_ne.
Qed.

(** ** Running a handler symbolically *)

(** The log entries that open a call of [start_livestream_callback]. *)
Lemma start_livestream_callback_closed (m : Bool) (w : World) :
  opened (cap w) = false ->
  start_livestream_callback m w =
    (Ok tt,
     with_logger
       (logger w ++
        [(INFO, "message received on topic livestream");
         (DEBUG, "Incoming message on topic livestream " ++ newline
                 ++ "with message: " ++ repr_Bool m);
         (INFO, "camera not available")]) w).
Proof.
  destruct w as [[o h wd fd] ic ts nh pl ps lg d dw]. simpl. intros ->.
  unfold camera_capture.start_livestream_callback. run_prims.
  by rewrite <- !app_assoc.
Qed.

Lemma start_livestream_callback_start (w : World) :
  opened (cap w) = true ->
  start_livestream_callback {| data := true |} w =
    (Ok tt,
     with_timers
       (timers w ++ [{| timer_handle := next_handle w; period_ms := 30;
                        callback := Timer_callback; canceled := false |}])
       (S (next_handle w))
       (with_logger
          (logger w ++
           [(INFO, "message received on topic livestream");
            (DEBUG, "Incoming message on topic livestream " ++ newline
                    ++ "with message: " ++ repr_Bool {| data := true |});
            (INFO, "camera is available");
            (INFO, "starting livestream")])
          (with_cap
             (Cap.set CAP_PROP_FRAME_WIDTH (capture_width_livestream json_settings)
                (Cap.set CAP_PROP_FRAME_HEIGHT
                   (capture_height_livestream json_settings) (cap w))) w))).
Proof.
  destruct w as [[o h wd fd] ic ts nh pl ps lg d dw]. simpl. intros ->.
  unfold camera_capture.start_livestream_callback. run_prims.
  by rewrite <- !app_assoc.
Qed.

Lemma start_livestream_callback_stop (w : World) :
  opened (cap w) = true ->
  start_livestream_callback {| data := false |} w =
    (Ok tt,
     with_logger
       (logger w ++
        [(INFO, "message received on topic livestream");
         (DEBUG, "Incoming message on topic livestream " ++ newline
                 ++ "with message: " ++ repr_Bool {| data := false |});
         (INFO, "camera is available");
         (INFO, "stopping livestream");
         (ERROR, "timer was is not defined)")])
       (with_cap
          (Cap.set CAP_PROP_FRAME_WIDTH (capture_width_livestream json_settings)
             (Cap.set CAP_PROP_FRAME_HEIGHT
                (capture_height_livestream json_settings) (cap w))) w)).
Proof.
  destruct w as [[o h wd fd] ic ts nh pl ps lg d dw]. simpl. intros ->.
  unfold camera_capture.start_livestream_callback. run_prims.
  by rewrite <- !app_assoc.
Qed.

(** The message that [timer_callback] and [capture_snapshot_callback] build
    from a frame, before any header field is written. *)
Lemma timer_callback_frame (w : World) (f : Frame) (rest : list (option Frame)) :
  opened (cap w) = true ->
  feed (cap w) = Some f :: rest ->
  timer_callback w =
    (Ok tt,
     with_pub_cam_livestream
       (pub_cam_livestream w ++
        [{| frame_id := ""; encoding := "bgr8"; pixels := f |}])
       (with_cap (snd (Cap.read (cap w))) w)).
Proof.
  destruct w as [[o h wd fd] ic ts nh pl ps lg d dw]. simpl. intros -> ->.
  unfold timer_callback. by run_prims.
Qed.

Lemma timer_callback_no_frame (w : World) :
  snd (fst (Cap.read (cap w))) = None ->
  timer_callback w = (Raise TypeError, with_cap (snd (Cap.read (cap w))) w).
Proof.
  destruct w as [[o h wd fd] ic ts nh pl ps lg d dw].
  unfold timer_callback. run_prims.
  destruct o; [|done]. destruct fd as [|[f|] fd]; by simpl.
Qed.

Lemma capture_snapshot_callback_closed (m : Bool) (w : World) :
  opened (cap w) = false ->
  capture_snapshot_callback m w =
    (Ok tt,
     with_logger
       (logger w ++
        [(INFO, "message received on topic snapshot " ++ newline
                ++ "with message: " ++ repr_Bool m ++ newline
                ++ "with data :" ++ (if data m then "True" else "False"));
         (INFO, "camera not available")]) w).
Proof.
  destruct w as [[o h wd fd] ic ts nh pl ps lg d dw]. simpl. intros ->.
  unfold camera_capture.capture_snapshot_callback. run_prims.
  by rewrite <- !app_assoc.
Qed.

(** A capture whose read delivers a frame, in full: the write may fail and
    the eviction may raise, and then the restoring [set] calls are skipped. *)
Lemma capture_snapshot_callback_frame
    (m : Bool) (w : World) (f : Frame) (rest : list (option Frame)) :
  opened (cap w) = true ->
  feed (cap w) = Some f :: rest ->
  capture_snapshot_callback m w =
    let d1 :=
      written (image_path (image_counter w)) (imencode f)
        (dir_writable w) (disk w) in
    let ev := eviction (image_counter w + 1) (dir_writable w) d1 in
    (match fst ev with Ok _ => Ok tt | Raise e => Raise e end,
     {| cap :=
          {| opened := true;
             frame_height :=
               if is_ok (fst ev) then capture_height_livestream json_settings
               else capture_height_snapshot json_settings;
             frame_width :=
               if is_ok (fst ev) then capture_width_livestream json_settings
               else capture_width_snapshot json_settings;
             feed := rest |};
        image_counter := image_counter w + 1;
        timers := timers w;
        next_handle := next_handle w;
        pub_cam_livestream := pub_cam_livestream w;
        pub_cam_snapshot :=
          pub_cam_snapshot w ++
          [{| frame_id := str (image_counter w); encoding := "bgr8";
              pixels := f |}];
        logger :=
          logger w ++
          [(INFO, "message received on topic snapshot " ++ newline
                  ++ "with message: " ++ repr_Bool m ++ newline
                  ++ "with data :" ++ (if data m then "True" else "False"));
           (INFO, "image saved at image" ++ str (image_counter w) ++ ".jpg")];
        disk := snd ev;
        dir_writable := dir_writable w |}).
Proof.
  destruct w as [[o h wd fd] ic ts nh pl ps lg d dw]. simpl. intros -> ->.
  unfold camera_capture.capture_snapshot_callback, written. run_prims.
  destruct (dw && negb (is_directory (d !! image_path ic)));
    rewrite prevent_overflood_image_eq; run_prims;
    match goal with
    | |- context [eviction ?n ?b ?x] =>
        destruct (eviction n b x) as [[[]|e] d2]
    end; simpl; by rewrite <- !app_assoc.
Qed.

(** The same in a directory that can be written to and holds only files. *)
Lemma capture_snapshot_callback_frame_healthy
    (m : Bool) (w : World) (f : Frame) (rest : list (option Frame)) :
  opened (cap w) = true ->
  feed (cap w) = Some f :: rest ->
  healthy w ->
  capture_snapshot_callback m w =
    (Ok tt,
     {| cap :=
          {| opened := true;
             frame_height := capture_height_livestream json_settings;
             frame_width := capture_width_livestream json_settings;
             feed := rest |};
        image_counter := image_counter w + 1;
        timers := timers w;
        next_handle := next_handle w;
        pub_cam_livestream := pub_cam_livestream w;
        pub_cam_snapshot :=
          pub_cam_snapshot w ++
          [{| frame_id := str (image_counter w); encoding := "bgr8";
              pixels := f |}];
        logger :=
          logger w ++
          [(INFO, "message received on topic snapshot " ++ newline
                  ++ "with message: " ++ repr_Bool m ++ newline
                  ++ "with data :" ++ (if data m then "True" else "False"));
           (INFO, "image saved at image" ++ str (image_counter w) ++ ".jpg")];
        disk :=
          evicted (image_counter w + 1)
            (<[image_path (image_counter w) := RegularFile (imencode f)]>
               (disk w));
        dir_writable := dir_writable w |}).
Proof.
  intros Ho Hf [Hw Hd].
  rewrite (capture_snapshot_callback_frame m w f rest) by done.
  cbv zeta. rewrite Hw, written_healthy by done.
  rewrite eviction_healthy; [done|].
  intros p. destruct (decide (image_path (image_counter w) = p)) as [<-|Hne].
  - by rewrite lookup_insert_eq.
  - by rewrite lookup_insert_ne.
Qed.

Lemma capture_snapshot_callback_no_frame (m : Bool) (w : World) :
  opened (cap w) = true ->
  snd (fst (Cap.read (cap w))) = None ->
  fst (capture_snapshot_callback m w) = Raise TypeError
  /\ image_counter (snd (capture_snapshot_callback m w)) = image_counter w
  /\ disk (snd (capture_snapshot_callback m w)) = disk w
  /\ pub_cam_snapshot (snd (capture_snapshot_callback m w)) = pub_cam_snapshot w.
Proof.
  destruct w as [[o h wd fd] ic ts nh pl ps lg d dw]. simpl. intros ->.
  unfold camera_capture.capture_snapshot_callback. run_prims.
  destruct fd as [|[f|] fd]; by simpl.
Qed.

(** ** What each handler leaves alone *)

Lemma cap_cases (c : VideoCapture) :
  opened c = false
  \/ (opened c = true /\ exists f rest, feed c = Some f :: rest)
  \/ (opened c = true /\ snd (fst (Cap.read c)) = None).
Proof.
  destruct c as [[] h wd [|[f|] fd]]; simpl; eauto 6.
Qed.

Lemma timer_callback_keeps (w : World) :
  image_counter (snd (timer_callback w)) = image_counter w
  /\ disk (snd (timer_callback w)) = disk w
  /\ timers (snd (timer_callback w)) = timers w
  /\ pub_cam_snapshot (snd (timer_callback w)) = pub_cam_snapshot w.
Proof.
  destruct w as [[o h wd fd] ic ts nh pl ps lg d dw].
  unfold timer_callback. run_prims.
  destruct o; [|done]. destruct fd as [|[f|] fd]; by simpl.
Qed.

Lemma fire_keeps (ts : list Timer) (w : World) :
  image_counter (snd (fire ts w)) = image_counter w
  /\ disk (snd (fire ts w)) = disk w
  /\ timers (snd (fire ts w)) = timers w
  /\ pub_cam_snapshot (snd (fire ts w)) = pub_cam_snapshot w.
Proof.
  revert w. induction ts as [|t ts IH]; intros w; [done|].
  simpl. unfold bind. destruct t as [th pm [] cn]. simpl.
  pose proof (timer_callback_keeps w) as Hk.
  destruct (timer_callback w) as [[[]|x] w1]; simpl in *; [|done].
  destruct (IH w1) as (-> & -> & -> & ->). done.
Qed.

Lemma start_livestream_callback_ok (m : Bool) (w : World) :
  fst (start_livestream_callback m w) = Ok tt.
Proof.
  destruct (opened (cap w)) eqn:Ho.
  - destruct m as [[]].
    + by rewrite start_livestream_callback_start.
    + by rewrite start_livestream_callback_stop.
  - by rewrite start_livestream_callback_closed.
Qed.

Lemma start_livestream_callback_keeps (m : Bool) (w : World) :
  image_counter (snd (start_livestream_callback m w)) = image_counter w
  /\ disk (snd (start_livestream_callback m w)) = disk w
  /\ pub_cam_snapshot (snd (start_livestream_callback m w)) = pub_cam_snapshot w
  /\ pub_cam_livestream (snd (start_livestream_callback m w))
     = pub_cam_livestream w.
Proof.
  destruct (opened (cap w)) eqn:Ho.
  - destruct m as [[]].
    + by rewrite start_livestream_callback_start.
    + by rewrite start_livestream_callback_stop.
  - by rewrite start_livestream_callback_closed.
Qed.

(** *** Invariants of the spin *)

Lemma spin_cons (e : Event) (es : list Event) (w : World) :
  spin (e :: es) w =
    match dispatch e w with
    | (Ok _, w') => spin es w'
    | (Raise x, w') => (Raise x, w')
    end.
Proof. reflexivity. Qed.

(** A property kept by every handler the spin delivers to is kept by the
    spin, also when the spin ends early in an exception. *)
Lemma spin_invariant_on (Q : Event -> Prop) (P : World -> Prop) :
  (forall e w, Q e -> P w -> P (snd (dispatch e w))) ->
  forall es w, Forall Q es -> P w -> P (snd (spin es w)).
Proof.
  intros Hstep es. induction es as [|e es IH]; intros w HQ HP; [done|].
  inversion HQ as [|? ? He Hes]; subst.
  rewrite spin_cons. specialize (Hstep e w He HP).
  destruct (dispatch e w) as [[[]|x] w1]; simpl in *; [by apply IH | done].
Qed.

Lemma spin_invariant (P : World -> Prop) :
  (forall e w, P w -> P (snd (dispatch e w))) ->
  forall es w, P w -> P (snd (spin es w)).
Proof.
  intros Hstep es w HP.
  apply (spin_invariant_on (fun _ => True)); auto.
  by apply Forall_forall.
Qed.

(** One delivery either leaves the counter alone or is a snapshot trigger
    whose read delivered a frame, which adds one. *)
Lemma dispatch_image_counter (e : Event) (w : World) :
  image_counter (snd (dispatch e w)) = image_counter w
  \/ (exists m f rest,
        e = Snapshot_trigger m /\ opened (cap w) = true
        /\ feed (cap w) = Some f :: rest
        /\ image_counter (snd (dispatch e w)) = image_counter w + 1).
Proof.
  destruct e as [m|m|]; simpl.
  - left. apply start_livestream_callback_keeps.
  - destruct (cap_cases (cap w)) as [Hc|[[Ho (f & rest & Hf)]|[Ho Hn]]].
    + left. by rewrite capture_snapshot_callback_closed.
    + right. exists m, f, rest.
      by rewrite (capture_snapshot_callback_frame m w f rest).
    + left. by apply capture_snapshot_callback_no_frame.
  - left. apply fire_keeps.
Qed.

Lemma spin_image_counter_le (es : list Event) (w : World) :
  image_counter w <= image_counter (snd (spin es w)).
Proof.
  apply (spin_invariant (fun w' => image_counter w <= image_counter w'));
    [|lia].
  intros e w1 H.
  destruct (dispatch_image_counter e w1) as [->|(_ & _ & _ & _ & _ & _ & ->)];
    lia.
Qed.

(** ** The periodic tasks *)

Lemma active_timers_timers (w1 w2 : World) :
  timers w1 = timers w2 -> active_timers w1 = active_timers w2.
Proof. unfold active_timers. by intros ->. Qed.

(** A livestream-state message adds one timer when it asks to start and
    finds the device opened, and otherwise leaves the timers as they are. *)
Lemma start_livestream_callback_timers (m : Bool) (w : World) :
  length (active_timers (snd (start_livestream_callback m w)))
  = (length (active_timers w)
     + if data m && opened (cap w) then 1 else 0)%nat
  /\ opened (cap (snd (start_livestream_callback m w))) = opened (cap w).
Proof.
  destruct (opened (cap w)) eqn:Ho.
  - destruct m as [[]].
    + rewrite start_livestream_callback_start by done. simpl.
      rewrite !set_opened. split; [|done].
      unfold active_timers. simpl.
      rewrite List.filter_app, length_app. simpl. done.
    + rewrite start_livestream_callback_stop by done. simpl.
      rewrite !set_opened. split; [|done].
      unfold active_timers. simpl. lia.
  - rewrite start_livestream_callback_closed by done. simpl.
    split; [|done]. unfold active_timers. simpl.
    rewrite andb_false_r. lia.
Qed.

(** ** The image directory *)

Lemma timer_callback_dir_writable (w : World) :
  dir_writable (snd (timer_callback w)) = dir_writable w.
Proof.
  destruct w as [[o h wd fd] ic ts nh pl ps lg d dw].
  unfold timer_callback. run_prims.
  destruct o; [|done]. destruct fd as [|[f|] fd]; by simpl.
Qed.

Lemma fire_dir_writable (ts : list Timer) (w : World) :
  dir_writable (snd (fire ts w)) = dir_writable w.
Proof.
  revert w. induction ts as [|t ts IH]; intros w; [done|].
  simpl. unfold bind. destruct t as [th pm [] cn]. simpl.
  pose proof (timer_callback_dir_writable w) as Hk.
  destruct (timer_callback w) as [[[]|x] w1]; simpl in *; [|done].
  by rewrite IH.
Qed.

(** No handler changes whether the image directory can be written to. *)
Lemma dispatch_dir_writable (e : Event) (w : World) :
  dir_writable (snd (dispatch e w)) = dir_writable w.
Proof.
  destruct e as [m|m|]; simpl.
  - destruct (opened (cap w)) eqn:Ho.
    + destruct m as [[]].
      * by rewrite start_livestream_callback_start.
      * by rewrite start_livestream_callback_stop.
    + by rewrite start_livestream_callback_closed.
  - destruct (cap_cases (cap w)) as [Hc|[[Ho (f & rest & Hf)]|[Ho Hn]]].
    + by rewrite capture_snapshot_callback_closed.
    + by rewrite (capture_snapshot_callback_frame m w f rest).
    + destruct w as [[o h wd fd] ic ts nh pl ps lg d dw]. simpl in *. subst o.
      unfold camera_capture.capture_snapshot_callback. run_prims.
      destruct fd as [|[f|] fd]; by simpl in *.
  - apply fire_dir_writable.
Qed.

Lemma healthy_same (w w' : World) :
  dir_writable w' = dir_writable w -> disk w' = disk w ->
  healthy w -> healthy w'.
Proof. unfold healthy. by intros -> ->. Qed.

(** A directory that can be written to and holds only files stays so. *)
Lemma healthy_dispatch (e : Event) (w : World) :
  healthy w -> healthy (snd (dispatch e w)).
Proof.
  intros Hh. pose proof (dispatch_dir_writable e w) as Hdw.
  destruct e as [m|m|]; simpl in *.
  - apply (healthy_same w); [done| |done].
    apply start_livestream_callback_keeps.
  - destruct (cap_cases (cap w)) as [Hc|[[Ho (f & rest & Hf)]|[Ho Hn]]].
    + apply (healthy_same w); [done| |done].
      by rewrite capture_snapshot_callback_closed.
    + rewrite (capture_snapshot_callback_frame_healthy m w f rest) by done.
      destruct Hh as [Hw Hd]. split; [done|]. simpl. intros p.
      unfold camera_capture.evicted.
      destruct (image_counter w + 1 >? 4)%Z.
      * intros [_ H]%lookup_delete_Some.
        apply lookup_insert_Some in H as [[_ H]|[_ H]]; [done|].
        by destruct (Hd p).
      * intros H.
        apply lookup_insert_Some in H as [[_ H]|[_ H]]; [done|].
        by destruct (Hd p).
    + apply (healthy_same w); [done| |done].
      by apply capture_snapshot_callback_no_frame.
  - apply (healthy_same w); [done| |done]. apply fire_keeps.
Qed.

(** ** The retention window *)

Lemma window_init (c : VideoCapture) (wr : bool) : window (init c wr ∅).
Proof.
  split; [done|]. intros p. simpl. rewrite lookup_empty. split.
  - by intros [? ?].
  - intros (i & _ & ? & ?). lia.
Qed.

Lemma window_capture
    (m : Bool) (w : World) (f : Frame) (rest : list (option Frame)) :
  opened (cap w) = true ->
  feed (cap w) = Some f :: rest ->
  healthy w ->
  window w -> window (snd (capture_snapshot_callback m w)).
Proof.
  intros Ho Hf Hh [Hc Hw].
  rewrite (capture_snapshot_callback_frame_healthy m w f rest) by done.
  split; simpl; [lia|]. intros p.
  unfold camera_capture.evicted.
  destruct (image_counter w + 1 >? 4)%Z eqn:Hgt.
  - apply Z.gtb_lt in Hgt.
    rewrite lookup_delete_is_Some, lookup_insert_is_Some', Hw. split.
    + intros [Hne [<-|(i & -> & Hi0 & Hi)]].
      * exists (image_counter w). split; [done|lia].
      * exists i. split; [done|].
        assert (i <> image_counter w + 1 - 5) by congruence. lia.
    + intros (i & -> & Hi0 & Hi). split.
      * intros Heq%image_path_inj. lia.
      * destruct (decide (i = image_counter w)) as [->|Hne]; [by left|].
        right. exists i. split; [done|lia].
  - assert (image_counter w + 1 <= 4) as Hle.
    { destruct (Z.gtb_spec (image_counter w + 1) 4); [done|lia]. }
    rewrite lookup_insert_is_Some', Hw. split.
    + intros [<-|(i & -> & Hi0 & Hi)].
      * exists (image_counter w). split; [done|lia].
      * exists i. split; [done|lia].
    + intros (i & -> & Hi0 & Hi).
      destruct (decide (i = image_counter w)) as [->|Hne]; [by left|].
      right. exists i. split; [done|lia].
Qed.

Lemma window_same (w w' : World) :
  image_counter w' = image_counter w -> disk w' = disk w ->
  window w -> window w'.
Proof. unfold camera_capture.window. by intros -> ->. Qed.

Lemma window_dispatch (e : Event) (w : World) :
  healthy w -> window w -> window (snd (dispatch e w)).
Proof.
  intros Hh Hw. destruct e as [m|m|]; simpl.
  - apply (window_same w); [apply start_livestream_callback_keeps..|done].
  - destruct (cap_cases (cap w)) as [Hc|[[Ho (f & rest & Hf)]|[Ho Hn]]].
    + by rewrite capture_snapshot_callback_closed.
    + by apply (window_capture m w f rest).
    + apply (window_same w); [apply capture_snapshot_callback_no_frame..|];
        done.
  - apply (window_same w); [apply fire_keeps..|done].
Qed.

(** The window holds as many files as the counter says, up to four. *)
Lemma window_size (w : World) :
  window w -> size (disk w) = Z.to_nat (Z.min (image_counter w) 4).
Proof.
  intros [Hc Hw].
  assert (dom (disk w) =@{gset string}
          list_to_set (image_path <$>
            seqZ (Z.max 0 (image_counter w - 4)) (Z.min (image_counter w) 4)))
    as Hdom.
  { apply set_eq. intros p.
    rewrite elem_of_dom, elem_of_list_to_set, list_elem_of_fmap, Hw.
    split.
    - intros (i & -> & ?). exists i. split; [done|].
      apply elem_of_seqZ. lia.
    - intros (i & -> & Hi%elem_of_seqZ). exists i. split; [done|lia]. }
  rewrite <- size_dom, Hdom, size_list_to_set.
  - by rewrite length_fmap, length_seqZ.
  - apply NoDup_fmap_2; [|apply NoDup_seqZ].
    intros a b. apply image_path_inj.
Qed.

Lemma healthy_window_spin (c : VideoCapture) (es : list Event) :
  healthy (snd (spin es (init c true ∅)))
  /\ window (snd (spin es (init c true ∅))).
Proof.
  apply (spin_invariant (fun w => healthy w /\ window w)).
  - intros e w [Hh Hw]. split; [by apply healthy_dispatch|].
    by apply window_dispatch.
  - split; [|apply window_init]. split; [done|].
    intros p. simpl. by rewrite lookup_empty.
Qed.

(** From an empty image directory that can be written to, whatever the node
    is sent, the directory holds exactly the files [image{i}.jpg] with [i]
    among the last four counter values: four files once four snapshots have
    been taken. *)
Lemma retention_window (c : VideoCapture) (es : list Event) :
  window (snd (spin es (init c true ∅)))
  /\ size (disk (snd (spin es (init c true ∅))))
     = Z.to_nat (Z.min (image_counter (snd (spin es (init c true ∅)))) 4).
Proof.
  destruct (healthy_window_spin c es) as [_ Hw].
  split; [done | by apply window_size].
Qed.

(** ** The claims *)

(** C6. When the device is unavailable, a livestream-state trigger changes
    nothing but the log: the capture handle keeps its resolution, no timer is
    created, and the handler returns normally. *)
Theorem livestream_trigger_device_unavailable (m : Bool) (w : World) :
  opened (cap w) = false ->
  start_livestream_callback m w =
    (Ok tt,
     with_logger
       (logger w ++
        [(INFO, "message received on topic livestream");
         (DEBUG, "Incoming message on topic livestream " ++ newline
                 ++ "with message: " ++ repr_Bool m);
         (INFO, "camera not available")]) w)
  /\ cap (snd (start_livestream_callback m w)) = cap w
  /\ timers (snd (start_livestream_callback m w)) = timers w
  /\ image_counter (snd (start_livestream_callback m w)) = image_counter w.
Proof.
  intros Hc. rewrite start_livestream_callback_closed by done. done.
Qed.

(** C7. A snapshot trigger that finds the device unavailable returns normally
    and writes no file, publishes no snapshot message and leaves the counter
    as it was. *)
Theorem snapshot_trigger_device_unavailable (m : Bool) (w : World) :
  opened (cap w) = false ->
  fst (capture_snapshot_callback m w) = Ok tt
  /\ disk (snd (capture_snapshot_callback m w)) = disk w
  /\ pub_cam_snapshot (snd (capture_snapshot_callback m w)) = pub_cam_snapshot w
  /\ image_counter (snd (capture_snapshot_callback m w)) = image_counter w.
Proof.
  intros Hc. rewrite capture_snapshot_callback_closed by done. done.
Qed.

(** C8. A snapshot capture whose read delivers frame [f] at counter value [C],
    with the image directory writable and no directory in the way, leaves the
    encoding of [f] in the file [{image_location}/image{C}.jpg], publishes
    one snapshot message whose [frame_id] is [str(C)], and makes the counter
    [C + 1]; it returns normally unless the file due for eviction is a
    directory. The constructor sets the counter to 0 and no run of the node
    lowers it. *)
Theorem snapshot_capture_persists_and_counts
    (m : Bool) (w : World) (f : Frame) (rest : list (option Frame)) :
  opened (cap w) = true ->
  feed (cap w) = Some f :: rest ->
  dir_writable w = true ->
  disk w !! (image_location json_settings ++ "/image"
             ++ str (image_counter w) ++ ".jpg") <> Some Directory ->
  (disk (snd (capture_snapshot_callback m w))
     !! (image_location json_settings ++ "/image"
         ++ str (image_counter w) ++ ".jpg")
   = Some (RegularFile (imencode f))
   /\ pub_cam_snapshot (snd (capture_snapshot_callback m w))
      = (pub_cam_snapshot w ++
         [{| frame_id := str (image_counter w); encoding := "bgr8";
             pixels := f |}])%list
   /\ image_counter (snd (capture_snapshot_callback m w)) = image_counter w + 1
   /\ (disk w !! (image_location json_settings ++ "/image"
                  ++ str (image_counter w - 4) ++ ".jpg") <> Some Directory ->
       fst (capture_snapshot_callback m w) = Ok tt))
  /\ (forall c wr d, image_counter (init c wr d) = 0)
  /\ (forall es w0, image_counter w0 <= image_counter (snd (spin es w0))).
Proof.
  intros Ho Hf Hw Hd. split; [|split; [done | apply spin_image_counter_le]].
  change (image_location json_settings ++ "/image"
          ++ str (image_counter w) ++ ".jpg")
    with (image_path (image_counter w)) in *.
  change (image_location json_settings ++ "/image"
          ++ str (image_counter w - 4) ++ ".jpg")
    with (image_path (image_counter w - 4)).
  assert (image_path (image_counter w + 1 - 5)
          <> image_path (image_counter w)) as Hne.
  { intros Heq%image_path_inj. lia. }
  rewrite (capture_snapshot_callback_frame m w f rest) by done.
  cbv zeta. rewrite Hw, written_healthy by done. simpl.
  split; [|split; [done|split; [done|]]].
  - rewrite eviction_lookup_ne by done. by rewrite lookup_insert_eq.
  - intros Hd4. unfold camera_capture.eviction.
    destruct (image_counter w + 1 >? 4)%Z; [|done].
    rewrite lookup_insert_ne by done.
    replace (image_counter w + 1 - 5) with (image_counter w - 4) by lia.
    by destruct (disk w !! image_path (image_counter w - 4)) as [[b|]|].
Qed.

(** C9. The livestream-state handler never reaches its last [else]: the log
    entry of that branch is never written, and with the device available a
    payload of true logs the start branch and a payload of false the stop
    branch. *)
Theorem livestream_else_branch_unreachable (m : Bool) (w : World) :
  exists l : list (Severity * string),
    logger (snd (start_livestream_callback m w)) = (logger w ++ l)%list
    /\ ~ In (DEBUG, "can't stop livestream because livestream is already stopped") l
    /\ (opened (cap w) = true ->
        In (INFO, if data m then "starting livestream" else "stopping livestream") l).
Proof.
  destruct (opened (cap w)) eqn:Ho.
  - destruct m as [[]].
    + rewrite start_livestream_callback_start by done. simpl.
      eexists. split; [reflexivity|]. split; [|simpl; tauto].
      not_logged.
    + rewrite start_livestream_callback_stop by done. simpl.
      eexists. split; [reflexivity|]. split; [|simpl; tauto].
      not_logged.
  - rewrite start_livestream_callback_closed by done. simpl.
    eexists. split; [reflexivity|]. split; [|done].
    not_logged.
Qed.

(** C10. Only a snapshot trigger whose read delivers a frame changes
    [image_counter]; any sequence of livestream-state messages and timer
    ticks leaves it as it was. *)
Theorem image_counter_only_by_snapshot :
  (forall (e : Event) (w : World),
     image_counter (snd (dispatch e w)) = image_counter w
     \/ (exists m f rest,
           e = Snapshot_trigger m /\ opened (cap w) = true
           /\ feed (cap w) = Some f :: rest
           /\ image_counter (snd (dispatch e w)) = image_counter w + 1))
  /\ (forall (es : list Event) (w : World),
        Forall (fun e => is_snapshot e = false) es ->
        image_counter (snd (spin es w)) = image_counter w).
Proof.
  split; [apply dispatch_image_counter|].
  intros es w Hes.
  apply (spin_invariant_on (fun e => is_snapshot e = false)
           (fun w' => image_counter w' = image_counter w)); [|done..].
  intros e w1 He <-.
  destruct (dispatch_image_counter e w1) as [->|(m & _ & _ & -> & _)]; done.
Qed.

(** C3, as the code has it. There is no guard against a second start: over
    any sequence of livestream-state messages the number of active periodic
    tasks is at most the number it began with plus the number of start
    messages, and with the device opened every start message adds one task,
    also when one is already active. *)
Theorem periodic_tasks_grow_with_starts (es : list Event) (w : World) :
  Forall (fun e => is_livestream e = true) es ->
  (length (active_timers (snd (spin es w)))
   <= length (active_timers w) + starts es)%nat
  /\ (opened (cap w) = true ->
      Forall (fun e => is_start e = true) es ->
      length (active_timers (snd (spin es w)))
      = (length (active_timers w) + length es)%nat).
Proof.
  revert w. induction es as [|e es IH]; intros w Hes.
  { simpl. split; [unfold starts; simpl; lia | intros; lia]. }
  inversion Hes as [|? ? He Hes']; subst.
  destruct e as [m| |]; try discriminate He.
  rewrite spin_cons. simpl.
  pose proof (start_livestream_callback_ok m w) as Hok.
  destruct (start_livestream_callback_timers m w) as [Hlen Hop].
  destruct (start_livestream_callback m w) as [[[]|x] w1]; simpl in *;
    [|discriminate Hok].
  destruct (IH w1 Hes') as [IHle IHeq]. split.
  - unfold starts in *. simpl.
    destruct (data m), (opened (cap w)); simpl in *; lia.
  - intros Ho Hst. inversion Hst as [|? ? Hm Hst']; subst. simpl in Hm.
    rewrite Ho, Hm in Hlen. simpl in Hlen.
    rewrite IHeq by congruence. lia.
Qed.

(** C5, as the code has it. A tick whose read delivers a frame publishes
    exactly that frame on the livestream topic, with an empty [frame_id], and
    returns normally. A tick whose read delivers nothing publishes nothing,
    and the handler ends in the [TypeError] that the conversion of the missing
    frame raises. Either way the timers, the counter, the image directory,
    the snapshot topic and the log are as before. *)
Theorem timer_callback_read_outcomes (w : World) :
  match snd (fst (Cap.read (cap w))) with
  | Some f =>
      fst (timer_callback w) = Ok tt
      /\ pub_cam_livestream (snd (timer_callback w))
         = (pub_cam_livestream w ++
            [{| frame_id := ""; encoding := "bgr8"; pixels := f |}])%list
  | None =>
      fst (timer_callback w) = Raise TypeError
      /\ pub_cam_livestream (snd (timer_callback w)) = pub_cam_livestream w
  end
  /\ timers (snd (timer_callback w)) = timers w
  /\ image_counter (snd (timer_callback w)) = image_counter w
  /\ disk (snd (timer_callback w)) = disk w
  /\ pub_cam_snapshot (snd (timer_callback w)) = pub_cam_snapshot w
  /\ logger (snd (timer_callback w)) = logger w.
Proof.
  destruct w as [[o h wd fd] ic ts nh pl ps lg d dw].
  unfold timer_callback. run_prims.
  destruct o; [|done]. destruct fd as [|[f|] fd]; by simpl.
Qed.

End Properties.

(** ** The node on a concrete configuration *)

(** C1. The fifth snapshot already evicts. With the counter at 4 and
    [image0.jpg] to [image3.jpg] on disk, a capture writes [image4.jpg], makes
    the counter 5 and removes [image0.jpg]: four files remain, not five, and
    four remain after the sixth capture as well. *)
Theorem fifth_capture_evicts_image0 (imencode : Frame -> FileBytes) :
  let w4 :=
    snd (spin example_settings imencode (repeat (Snapshot_trigger msg_true) 4)
           (init (example_cap 6) true ∅)) in
  let w5 :=
    snd (capture_snapshot_callback example_settings imencode msg_true w4) in
  let w6 :=
    snd (capture_snapshot_callback example_settings imencode msg_true w5) in
  (image_counter w4 = 4
   /\ size (disk w4) = 4%nat
   /\ disk w4 !! "/home/images/image0.jpg"
      = Some (RegularFile (imencode [0])))
  /\ (image_counter w5 = 5
      /\ disk w5 !! "/home/images/image4.jpg"
         = Some (RegularFile (imencode [4]))
      /\ disk w5 !! "/home/images/image0.jpg" = None
      /\ size (disk w5) = 4%nat)
  /\ (image_counter w6 = 6
      /\ disk w6 !! "/home/images/image1.jpg" = None
      /\ size (disk w6) = 4%nat).
Proof. vm_compute. repeat split. Qed.

(** C2. A stop message cancels nothing. Whatever the node's state, the
    handler leaves the node's timers as they were; and after a start, three
    ticks and a stop, the one timer is still active and two further ticks
    publish two further livestream frames. *)
Theorem stop_trigger_keeps_timer_firing (imencode : Frame -> FileBytes) :
  (forall (cfg : Settings) (w : World),
     timers (snd (start_livestream_callback cfg msg_false w)) = timers w)
  /\ (let run :=
        [Livestream_state msg_true; Tick; Tick; Tick;
         Livestream_state msg_false] in
      let w :=
        snd (spin example_settings imencode run (init (example_cap 6) true ∅))
      in
      fst (spin example_settings imencode run (init (example_cap 6) true ∅))
      = Ok tt
      /\ length (pub_cam_livestream w) = 3%nat
      /\ length (active_timers w) = 1%nat
      /\ length (pub_cam_livestream
                   (snd (spin example_settings imencode [Tick; Tick] w)))
         = 5%nat).
Proof.
  split; [|vm_compute; repeat split].
  intros cfg w. destruct (opened (cap w)) eqn:Ho.
  - unfold msg_false. by rewrite start_livestream_callback_stop.
  - by rewrite start_livestream_callback_closed.
Qed.

(** C4. The snapshot handler does not look at the payload. A message with
    payload false leaves the counter, the image directory, the snapshot topic
    and the capture handle exactly as a message with payload true does; on an
    opened device it writes [image0.jpg], publishes one snapshot message,
    makes the counter 1 and moves the handle from the pipeline's resolution to
    the livestream resolution. *)
Theorem snapshot_trigger_ignores_payload (imencode : Frame -> FileBytes) :
  (forall (cfg : Settings) (w : World),
     let a := capture_snapshot_callback cfg imencode msg_false w in
     let b := capture_snapshot_callback cfg imencode msg_true w in
     fst a = fst b
     /\ image_counter (snd a) = image_counter (snd b)
     /\ disk (snd a) = disk (snd b)
     /\ pub_cam_snapshot (snd a) = pub_cam_snapshot (snd b)
     /\ cap (snd a) = cap (snd b))
  /\ (let w0 := init (example_cap 1) true ∅ in
      let w1 :=
        snd (capture_snapshot_callback example_settings imencode msg_false w0)
      in
      image_counter w1 = 1
      /\ disk w1 !! "/home/images/image0.jpg"
         = Some (RegularFile (imencode [0]))
      /\ pub_cam_snapshot w1
         = [{| frame_id := "0"; encoding := "bgr8"; pixels := [0] |}]
      /\ (frame_width (cap w0), frame_height (cap w0)) = (1920, 1080)
      /\ (frame_width (cap w1), frame_height (cap w1)) = (640, 480)).
Proof.
  split; [|vm_compute; repeat split].
  intros cfg w.
  destruct (cap_cases (cap w)) as [Hc|[[Ho (f & rest & Hf)]|[Ho Hn]]].
  - by rewrite !capture_snapshot_callback_closed.
  - by rewrite !(capture_snapshot_callback_frame cfg imencode _ w f rest).
  - destruct w as [[o h wd fd] ic ts nh pl ps lg d dw]. simpl in *. subst o.
    unfold capture_snapshot_callback. run_prims.
    destruct fd as [|[f|] fd]; by simpl in *.
Qed.

(** C3, as stated, fails: two start messages in a row on an opened device
    leave two active periodic tasks. *)
Lemma double_start_two_tasks :
  ~ (forall es : list Event,
       Forall (fun e => is_livestream e = true) es ->
       (length (active_timers
                  (snd (spin example_settings example_imencode es
                          (init (example_cap 0) true ∅))))
        <= 1)%nat).
Proof.
  intros H.
  specialize (H [Livestream_state msg_true; Livestream_state msg_true]).
  assert (2 <= 1)%nat as Hle; [|lia].
  apply H. by repeat constructor.
Qed.

(** C5, as stated, fails: a tick whose read delivers no frame does not
    return normally. *)
Lemma failed_read_raises :
  ~ (forall w : World,
       snd (fst (Cap.read (cap w))) = None -> fst (timer_callback w) = Ok tt).
Proof.
  intros H. specialize (H (init starved_cap true ∅) eq_refl).
  vm_compute in H. discriminate H.
Qed.

(** ** The conditional theorems at concrete inputs *)

Lemma periodic_tasks_grow_with_starts_witness :
  Forall (fun e => is_livestream e = true)
    [Livestream_state msg_true; Livestream_state msg_true]
  /\ length (active_timers
               (snd (spin example_settings example_imencode
                       [Livestream_state msg_true; Livestream_state msg_true]
                       (init (example_cap 0) true ∅)))) = 2%nat.
Proof.
  assert (Forall (fun e => is_livestream e = true)
            [Livestream_state msg_true; Livestream_state msg_true]) as Hl.
  { repeat constructor. }
  split; [exact Hl|].
  apply (proj2 (periodic_tasks_grow_with_starts example_settings example_imencode
                  [Livestream_state msg_true; Livestream_state msg_true]
                  (init (example_cap 0) true ∅) Hl)).
  - reflexivity.
  - repeat constructor.
Defined.

Lemma livestream_trigger_device_unavailable_witness :
  opened (cap (init closed_cap true ∅)) = false
  /\ cap (snd (start_livestream_callback example_settings msg_true
                 (init closed_cap true ∅))) = closed_cap
  /\ timers (snd (start_livestream_callback example_settings msg_true
                    (init closed_cap true ∅))) = []
  /\ image_counter (snd (start_livestream_callback example_settings msg_true
                           (init closed_cap true ∅))) = 0.
Proof.
  split; [reflexivity|].
  apply (livestream_trigger_device_unavailable example_settings msg_true
           (init closed_cap true ∅)).
  reflexivity.
Defined.

Lemma snapshot_trigger_device_unavailable_witness :
  let w := init closed_cap true ∅ in
  opened (cap w) = false
  /\ fst (capture_snapshot_callback example_settings example_imencode
            msg_true w) = Ok tt
  /\ disk (snd (capture_snapshot_callback example_settings example_imencode
                  msg_true w)) = ∅
  /\ pub_cam_snapshot
       (snd (capture_snapshot_callback example_settings example_imencode
               msg_true w)) = []
  /\ image_counter
       (snd (capture_snapshot_callback example_settings example_imencode
               msg_true w)) = 0.
Proof.
  intros w. split; [reflexivity|].
  apply (snapshot_trigger_device_unavailable example_settings
           example_imencode msg_true w).
  reflexivity.
Defined.

Lemma snapshot_capture_persists_and_counts_witness :
  opened (cap (init (example_cap 1) true ∅)) = true
  /\ feed (cap (init (example_cap 1) true ∅)) = [Some [0]]
  /\ dir_writable (init (example_cap 1) true ∅) = true
  /\ disk (init (example_cap 1) true ∅) !! "/home/images/image0.jpg"
     <> Some Directory
  /\ disk (snd (capture_snapshot_callback example_settings example_imencode
                  msg_true (init (example_cap 1) true ∅)))
       !! "/home/images/image0.jpg"
     = Some (RegularFile (example_imencode [0]))
  /\ image_counter
       (snd (capture_snapshot_callback example_settings example_imencode
               msg_true (init (example_cap 1) true ∅))) = 0 + 1.
Proof.
  assert (disk (init (example_cap 1) true ∅) !! "/home/images/image0.jpg"
          <> Some Directory) as Hd by done.
  split; [reflexivity|]. split; [reflexivity|]. split; [reflexivity|].
  split; [exact Hd|].
  pose proof (snapshot_capture_persists_and_counts example_settings
                example_imencode msg_true (init (example_cap 1) true ∅)
                [0] [] eq_refl eq_refl eq_refl Hd) as [(H1 & _ & H3 & _) _].
  split; [exact H1 | exact H3].
Defined.

Lemma livestream_else_branch_unreachable_witness :
  exists l : list (Severity * string),
    logger (snd (start_livestream_callback example_settings msg_false
                   (init (example_cap 0) true ∅))) = l
    /\ ~ In (DEBUG, "can't stop livestream because livestream is already stopped") l
    /\ In (INFO, "stopping livestream") l.
Proof.
  destruct (livestream_else_branch_unreachable example_settings msg_false
              (init (example_cap 0) true ∅)) as (l & Hl & Hn & Hs).
  exists l. split; [exact Hl|]. split; [exact Hn|]. apply Hs. reflexivity.
Defined.

Lemma image_counter_only_by_snapshot_witness :
  Forall (fun e => is_snapshot e = false)
    [Livestream_state msg_true; Tick; Livestream_state msg_false]
  /\ image_counter
       (snd (spin example_settings example_imencode
               [Livestream_state msg_true; Tick; Livestream_state msg_false]
               (init (example_cap 2) true ∅))) = 0.
Proof.
  assert (Forall (fun e => is_snapshot e = false)
            [Livestream_state msg_true; Tick; Livestream_state msg_false])
    as Hl.
  { repeat constructor. }
  split; [exact Hl|].
  apply (proj2 (image_counter_only_by_snapshot example_settings example_imencode) _
           (init (example_cap 2) true ∅) Hl).
Defined.

(** * Further properties of the node *)

Section Retention.

Variable json_settings : Settings.
Variable imencode : Frame -> FileBytes.

Abbreviation image_path := (image_path json_settings).
Abbreviation prevent_overflood_image := (prevent_overflood_image json_settings).
Abbreviation eviction := (eviction json_settings).
Abbreviation evicted := (evicted json_settings).
Abbreviation window := (window json_settings).
Abbreviation capture_snapshot_callback :=
  (capture_snapshot_callback json_settings imencode).
Abbreviation dispatch := (dispatch json_settings imencode).
Abbreviation spin := (spin json_settings imencode).

(** One delivery changes the image directory at two names at most: the file
    of the current counter value and the file four values below it. *)
Lemma dispatch_disk_other (e : Event) (w : World) (p : string) :
  p <> image_path (image_counter w) ->
  p <> image_path (image_counter w - 4) ->
  disk (snd (dispatch e w)) !! p = disk w !! p.
Proof.
  intros Hc Ho. destruct e as [m|m|]; simpl.
  - f_equal. apply start_livestream_callback_keeps.
  - destruct (cap_cases (cap w)) as [Hcl|[[Hop (f & rest & Hf)]|[Hop Hn]]].
    + by rewrite capture_snapshot_callback_closed.
    + rewrite (capture_snapshot_callback_frame _ _ m w f rest) by done.
      simpl. rewrite eviction_lookup_ne, written_lookup_ne; [done|done|].
      intros <-. apply Ho. f_equal. lia.
    + f_equal. by apply capture_snapshot_callback_no_frame.
  - f_equal. apply fire_keeps.
Qed.

(** X1. From an empty image directory that can be written to, whatever the
    node is sent, the files on disk are exactly [image{i}.jpg] for the values
    [i] from four below the counter (or from 0) up to the counter, and
    nothing else: as many files as the counter says, and never more than
    four. *)
Theorem retention_keeps_last_four (c : VideoCapture) (es : list Event) :
  let w := snd (spin es (init c true ∅)) in
  0 <= image_counter w
  /\ (forall i : Z,
        is_Some (disk w !! image_path i)
        <-> 0 <= i /\ image_counter w - 4 <= i < image_counter w)
  /\ (forall p : string, is_Some (disk w !! p) -> exists i, p = image_path i)
  /\ size (disk w) = Z.to_nat (Z.min (image_counter w) 4)
  /\ (size (disk w) <= 4)%nat.
Proof.
  intros w.
  destruct (healthy_window_spin json_settings imencode c es) as [_ Hw].
  fold w in Hw.
  pose proof (window_size _ w Hw) as Hsz.
  destruct Hw as [Hc Hw].
  split; [done|]. split; [|split; [|split; [done|lia]]].
  - intros i. rewrite Hw. split.
    + by intros (j & ->%image_path_inj & ?).
    + intros ?. by exists i.
  - intros p (i & -> & _)%Hw. by exists i.
Qed.


(** X3. Running [prevent_overflood_image] a second time with the same number
    gives what the first call gave and changes nothing more: after a removal
    the existence test finds the file gone and [os.remove] is not called
    again. *)
Theorem prevent_overflood_image_idempotent (n : Z) (w : World) :
  prevent_overflood_image n (snd (prevent_overflood_image n w))
  = prevent_overflood_image n w
  /\ (fst (prevent_overflood_image n w) = Ok tt ->
      prevent_overflood_image n (snd (prevent_overflood_image n w))
      = (Ok tt, snd (prevent_overflood_image n w))).
Proof.
  rewrite !prevent_overflood_image_eq. simpl.
  unfold camera_capture.eviction.
  destruct (n >? 4)%Z; [|by destruct w].
  destruct (disk w !! image_path (n - 5)) as [[b|]|] eqn:Hl;
    [destruct (dir_writable w) eqn:Hw|..]; simpl;
    rewrite ?lookup_delete_eq, ?Hl, ?Hw; simpl; by destruct w.
Qed.

(** X4. A file is never touched unless it is [image{i}.jpg] for some [i] from
    four below the current counter value on: files under other names, and
    image files numbered lower than that, keep their content through any run
    of the node. *)
Theorem other_files_untouched (es : list Event) (w : World) (p : string) :
  (forall i : Z, image_counter w - 4 <= i -> p <> image_path i) ->
  disk (snd (spin es w)) !! p = disk w !! p.
Proof.
  intros Hp.
  assert (image_counter w <= image_counter (snd (spin es w))
          /\ disk (snd (spin es w)) !! p = disk w !! p) as [_ H]; [|done].
  apply (spin_invariant json_settings imencode
           (fun w' => image_counter w <= image_counter w'
                      /\ disk w' !! p = disk w !! p)); [|done].
  intros e w1 [Hle Hd]. split.
  - destruct (dispatch_image_counter json_settings imencode e w1)
      as [->|(_ & _ & _ & _ & _ & _ & ->)]; lia.
  - rewrite <- Hd. apply dispatch_disk_other; apply Hp; lia.
Qed.

End Retention.

Section Handlers.

Variable json_settings : Settings.
Variable imencode : Frame -> FileBytes.

Abbreviation image_path := (image_path json_settings).
Abbreviation evicted := (evicted json_settings).
Abbreviation start_livestream_callback := (start_livestream_callback json_settings).
Abbreviation capture_snapshot_callback :=
  (capture_snapshot_callback json_settings imencode).
Abbreviation dispatch := (dispatch json_settings imencode).
Abbreviation spin := (spin json_settings imencode).
Abbreviation filed := (filed json_settings imencode).

(** The snapshot handler leaves the timers and the livestream topic alone,
    however it ends. *)
Lemma capture_snapshot_callback_keeps (m : Bool) (w : World) :
  timers (snd (capture_snapshot_callback m w)) = timers w
  /\ pub_cam_livestream (snd (capture_snapshot_callback m w))
     = pub_cam_livestream w.
Proof.
  destruct (cap_cases (cap w)) as [Hcl|[[Hop (f & rest & Hf)]|[Hop Hn]]].
  - by rewrite capture_snapshot_callback_closed.
  - by rewrite (capture_snapshot_callback_frame _ _ m w f rest).
  - destruct w as [[o h wd fd] ic ts nh pl ps lg d dw]. simpl in *. subst o.
    unfold camera_capture.capture_snapshot_callback. run_prims.
    destruct fd as [|[f|] fd]; by simpl in *.
Qed.

Lemma numbered_length (w : World) :
  numbered w -> length (pub_cam_snapshot w) = Z.to_nat (image_counter w).
Proof.
  intros (_ & Hid). apply (f_equal length) in Hid.
  by rewrite !length_fmap, length_seqZ in Hid.
Qed.

Lemma numbered_same (w w' : World) :
  image_counter w' = image_counter w ->
  pub_cam_snapshot w' = pub_cam_snapshot w ->
  numbered w -> numbered w'.
Proof. unfold numbered. by intros -> ->. Qed.

(** Publishing and counting go together, whatever the write and the eviction
    do. *)
Lemma numbered_capture
    (m : Bool) (w : World) (f : Frame) (rest : list (option Frame)) :
  opened (cap w) = true ->
  feed (cap w) = Some f :: rest ->
  numbered w -> numbered (snd (capture_snapshot_callback m w)).
Proof.
  intros Ho Hf (Hc & Hid).
  rewrite (capture_snapshot_callback_frame _ _ m w f rest) by done.
  split; simpl; [lia|].
  rewrite fmap_app, Hid, seqZ_app by lia. rewrite fmap_app. simpl.
  by replace (Z.of_nat 0 + (0 + image_counter w)) with (image_counter w)
    by lia.
Qed.

Lemma numbered_dispatch (e : Event) (w : World) :
  numbered w -> numbered (snd (dispatch e w)).
Proof.
  intros Hn. destruct e as [m|m|]; simpl.
  - apply (numbered_same w); [apply start_livestream_callback_keeps..|done].
  - destruct (cap_cases (cap w)) as [Hcl|[[Hop (f & rest & Hf)]|[Hop Hno]]].
    + by rewrite capture_snapshot_callback_closed.
    + by apply (numbered_capture m w f rest).
    + apply (numbered_same w);
        [apply capture_snapshot_callback_no_frame..|]; done.
  - apply (numbered_same w); [apply fire_keeps..|done].
Qed.

Lemma filed_same (w w' : World) :
  image_counter w' = image_counter w -> disk w' = disk w ->
  pub_cam_snapshot w' = pub_cam_snapshot w ->
  filed w -> filed w'.
Proof. unfold camera_capture.filed. by intros -> -> ->. Qed.

Lemma filed_capture
    (m : Bool) (w : World) (f : Frame) (rest : list (option Frame)) :
  opened (cap w) = true ->
  feed (cap w) = Some f :: rest ->
  healthy w -> numbered w ->
  filed w -> filed (snd (capture_snapshot_callback m w)).
Proof.
  intros Ho Hf Hh Hn Hfile. pose proof (numbered_length w Hn) as Hlen.
  destruct Hn as (Hc & Hid).
  rewrite (capture_snapshot_callback_frame_healthy _ _ m w f rest) by done.
  intros i msg. simpl.
  intros [[Hi Hl]|[Hi <-]]%lookup_snoc_Some Hwin.
  - assert (image_path (Z.of_nat i) <> image_path (image_counter w)).
    { intros ?%image_path_inj. lia. }
    unfold evicted. destruct (image_counter w + 1 >? 4)%Z.
    + rewrite lookup_delete_ne, lookup_insert_ne; [|done|].
      * apply (Hfile i msg Hl). lia.
      * intros ?%image_path_inj. lia.
    + rewrite lookup_insert_ne by done. apply (Hfile i msg Hl). lia.
  - replace (Z.of_nat i) with (image_counter w) by lia. simpl.
    unfold evicted. destruct (image_counter w + 1 >? 4)%Z.
    + rewrite lookup_delete_ne; [by rewrite lookup_insert_eq|].
      intros ?%image_path_inj. lia.
    + by rewrite lookup_insert_eq.
Qed.

Lemma filed_dispatch (e : Event) (w : World) :
  healthy w -> numbered w -> filed w -> filed (snd (dispatch e w)).
Proof.
  intros Hh Hn Hfile. destruct e as [m|m|]; simpl.
  - apply (filed_same w); [apply start_livestream_callback_keeps..|done].
  - destruct (cap_cases (cap w)) as [Hcl|[[Hop (f & rest & Hf)]|[Hop Hno]]].
    + by rewrite capture_snapshot_callback_closed.
    + by apply (filed_capture m w f rest).
    + apply (filed_same w);
        [apply capture_snapshot_callback_no_frame..|]; done.
  - apply (filed_same w); [apply fire_keeps..|done].
Qed.

(** X5. In every run from the constructor, whatever the image directory
    held before and whether or not it can be written to, the snapshot topic
    carries one message per counter value: the [i]-th message has [frame_id]
    [str(i)] and there are as many messages as the counter says. When the
    directory can be written to and holds no directory, the file
    [{image_location}/image{i}.jpg] of each of the last four messages holds
    the encoding of the frame that the message carries. *)
Theorem snapshot_messages_match_files
    (c : VideoCapture) (wr : bool) (d : gmap string Entry)
    (es : list Event) :
  let w := snd (spin es (init c wr d)) in
  frame_id <$> pub_cam_snapshot w = str <$> seqZ 0 (image_counter w)
  /\ Z.of_nat (length (pub_cam_snapshot w)) = image_counter w
  /\ (wr = true ->
      (forall p, d !! p <> Some Directory) ->
      forall (i : nat) (msg : Image),
        pub_cam_snapshot w !! i = Some msg ->
        image_counter w - 4 <= Z.of_nat i ->
        disk w !! (image_location json_settings ++ "/image"
                   ++ str (Z.of_nat i) ++ ".jpg")
        = Some (RegularFile (imencode (pixels msg)))).
Proof.
  intros w.
  assert (numbered w) as Hn.
  { apply spin_invariant; [apply numbered_dispatch|done]. }
  pose proof (numbered_length w Hn) as Hlen.
  destruct Hn as (Hc & Hid).
  split; [done|]. split; [lia|].
  intros -> Hd.
  assert (healthy w /\ numbered w /\ filed w) as (_ & _ & Hfile); [|done].
  apply (spin_invariant json_settings imencode
           (fun w' => healthy w' /\ numbered w' /\ filed w')).
  - intros e w1 (Hh & Hn & Hfile).
    split; [by apply healthy_dispatch|].
    split; [by apply numbered_dispatch | by apply filed_dispatch].
  - split; [done|]. split; [done|]. intros i msg Hl. by destruct i.
Qed.

(** X6. A snapshot capture whose read delivers a frame and which returns
    normally ends with the handle at the livestream resolution, whatever the
    payload and whether or not a livestream is running; it takes exactly one
    frame from the device. *)
Theorem snapshot_restores_livestream_resolution
    (m : Bool) (w : World) (f : Frame) (rest : list (option Frame)) :
  opened (cap w) = true ->
  feed (cap w) = Some f :: rest ->
  fst (capture_snapshot_callback m w) = Ok tt ->
  cap (snd (capture_snapshot_callback m w))
  = {| opened := true;
       frame_height := capture_height_livestream json_settings;
       frame_width := capture_width_livestream json_settings;
       feed := rest |}.
Proof.
  intros Ho Hf.
  rewrite (capture_snapshot_callback_frame _ _ m w f rest) by done.
  simpl.
  by destruct (fst (camera_capture.eviction _ _ _ _)) eqn:He.
Qed.


(** X7. A snapshot capture whose read delivers no frame ends in [TypeError]
    before anything is written, published or counted, and before the
    resolution is set back: the handle stays at the snapshot resolution, and
    the only trace is the first log entry. *)
Theorem snapshot_failed_read_keeps_snapshot_resolution (m : Bool) (w : World) :
  opened (cap w) = true ->
  snd (fst (Cap.read (cap w))) = None ->
  fst (capture_snapshot_callback m w) = Raise TypeError
  /\ frame_height (cap (snd (capture_snapshot_callback m w)))
     = capture_height_snapshot json_settings
  /\ frame_width (cap (snd (capture_snapshot_callback m w)))
     = capture_width_snapshot json_settings
  /\ image_counter (snd (capture_snapshot_callback m w)) = image_counter w
  /\ disk (snd (capture_snapshot_callback m w)) = disk w
  /\ pub_cam_snapshot (snd (capture_snapshot_callback m w)) = pub_cam_snapshot w
  /\ logger (snd (capture_snapshot_callback m w))
     = (logger w ++
        [(INFO, ("message received on topic snapshot " ++ newline
                 ++ "with message: " ++ repr_Bool m ++ newline
                 ++ "with data :"
                 ++ (if data m then "True" else "False"))%string)])%list.
Proof.
  destruct w as [[o h wd fd] ic ts nh pl ps lg d dw]. simpl. intros ->.
  unfold camera_capture.capture_snapshot_callback. run_prims.
  destruct fd as [|[f|] fd]; by simpl.
Qed.

(** X9. The livestream-state handler returns normally for every payload and
    every state of the node, a stop without a running livestream included.
    With the device opened it sets the handle to the livestream resolution
    for either payload without taking a frame, and every stop message ends
    in the error entry of the handler's [except] branch. *)
Theorem livestream_handler_never_raises (m : Bool) (w : World) :
  fst (start_livestream_callback m w) = Ok tt
  /\ (opened (cap w) = true ->
      cap (snd (start_livestream_callback m w))
      = {| opened := true;
           frame_height := capture_height_livestream json_settings;
           frame_width := capture_width_livestream json_settings;
           feed := feed (cap w) |})
  /\ (opened (cap w) = true -> data m = false ->
      exists l,
        logger (snd (start_livestream_callback m w))
        = (logger w ++ l ++ [(ERROR, "timer was is not defined)")])%list).
Proof.
  split; [apply start_livestream_callback_ok|].
  destruct w as [[o h wd fd] ic ts nh pl ps lg d dw]. simpl. split.
  - intros ->. destruct m as [[]].
    + by rewrite start_livestream_callback_start.
    + by rewrite start_livestream_callback_stop.
  - intros -> Hm. destruct m as [b]. simpl in Hm. subst b.
    rewrite start_livestream_callback_stop by done. simpl.
    by eexists [_; _; _; _].
Qed.

(** *** Ticks *)

(** As many reads as timers, each delivering a frame. *)
Lemma fire_frames (ts : list Timer) :
  forall (fs : list Frame) (rest : list (option Frame)) (w : World),
    opened (cap w) = true ->
    feed (cap w) = ((Some <$> fs) ++ rest)%list ->
    length fs = length ts ->
    fire ts w =
      (Ok tt,
       with_pub_cam_livestream
         (pub_cam_livestream w ++ (livestream_image <$> fs))
         (with_cap
            {| opened := true; frame_height := frame_height (cap w);
               frame_width := frame_width (cap w); feed := rest |} w)).
Proof.
  induction ts as [|t ts IH]; intros fs rest w Ho Hf Hlen.
  - destruct fs; [|done].
    destruct w as [[o h wd fd] ic tms nh pl ps lg d dw]. simpl in *. subst.
    unfold ret, with_pub_cam_livestream, with_cap. simpl.
    by rewrite app_nil_r.
  - destruct fs as [|f fs]; [done|]. simpl in Hf, Hlen.
    destruct t as [th pm [] cn]. simpl. unfold bind at 1. simpl.
    rewrite (timer_callback_frame w f ((Some <$> fs) ++ rest)) by done.
    destruct w as [[o h wd fd] ic tms nh pl ps lg d dw]. simpl in *. subst.
    rewrite (IH fs rest); [|done|done|lia].
    unfold with_pub_cam_livestream, with_cap. simpl.
    by rewrite <- app_assoc.
Qed.

(** Fewer frames than timers: the tick ends at the first read without one. *)
Lemma fire_starved (ts : list Timer) :
  forall (fs : list Frame) (rest : list (option Frame)) (w : World),
    opened (cap w) = true ->
    feed (cap w) = ((Some <$> fs) ++ rest)%list ->
    (length fs < length ts)%nat ->
    head rest = None \/ head rest = Some None ->
    fst (fire ts w) = Raise TypeError
    /\ pub_cam_livestream (snd (fire ts w))
       = (pub_cam_livestream w ++ (livestream_image <$> fs))%list.
Proof.
  induction ts as [|t ts IH]; intros fs rest w Ho Hf Hlen Hr.
  - simpl in Hlen. lia.
  - destruct t as [th pm [] cn]. simpl. unfold bind.
    destruct fs as [|f fs]; simpl in Hf.
    + rewrite timer_callback_no_frame.
      * simpl. by rewrite app_nil_r.
      * destruct (cap w) as [o h wd fd]. simpl in *. subst.
        destruct rest as [|[g|] rest]; simpl in *; [done| |done].
        destruct Hr as [Hr|Hr]; discriminate Hr.
    + rewrite (timer_callback_frame w f ((Some <$> fs) ++ rest)) by done.
      destruct w as [[o h wd fd] ic tms nh pl ps lg d dw]. simpl in *. subst.
      unfold with_pub_cam_livestream, with_cap. simpl.
      match goal with
      | |- context [fire ts ?W] =>
          destruct (IH fs rest W) as [-> ->]; [done|done|lia|done|]
      end.
      simpl. by rewrite <- app_assoc.
Qed.

(** X10. One tick publishes one livestream frame per active timer: when the
    device has a frame for each, the frames are published in the order read,
    each with an empty [frame_id], and nothing else changes. After [n] start
    messages a tick therefore takes [n] frames. *)
Theorem tick_publishes_one_frame_per_timer
    (w : World) (fs : list Frame) (rest : list (option Frame)) :
  opened (cap w) = true ->
  feed (cap w) = ((Some <$> fs) ++ rest)%list ->
  length fs = length (active_timers w) ->
  dispatch Tick w =
    (Ok tt,
     with_pub_cam_livestream
       (pub_cam_livestream w ++ (livestream_image <$> fs))
       (with_cap
          {| opened := true; frame_height := frame_height (cap w);
             frame_width := frame_width (cap w); feed := rest |} w)).
Proof. intros Ho Hf Hlen. simpl. by apply fire_frames. Qed.

(** X11. When the device runs out of frames in the middle of a tick, the
    frames read so far are published, the tick ends in [TypeError], and the
    remaining timers do not fire. *)
Theorem tick_starved_raises
    (w : World) (fs : list Frame) (rest : list (option Frame)) :
  opened (cap w) = true ->
  feed (cap w) = ((Some <$> fs) ++ rest)%list ->
  (length fs < length (active_timers w))%nat ->
  head rest = None \/ head rest = Some None ->
  fst (dispatch Tick w) = Raise TypeError
  /\ pub_cam_livestream (snd (dispatch Tick w))
     = (pub_cam_livestream w ++ (livestream_image <$> fs))%list.
Proof. intros Ho Hf Hlen Hr. simpl. by apply (fire_starved _ fs rest). Qed.

Lemma timer_callback_publishes (w : World) :
  pub_cam_livestream (snd (timer_callback w)) = pub_cam_livestream w
  \/ exists f,
       pub_cam_livestream (snd (timer_callback w))
       = (pub_cam_livestream w ++ [livestream_image f])%list.
Proof.
  destruct w as [[o h wd fd] ic ts nh pl ps lg d dw].
  unfold timer_callback. run_prims.
  destruct o; [|by left]. destruct fd as [|[f|] fd]; simpl; eauto.
Qed.

Lemma fire_publishes_unnumbered (ts : list Timer) (w : World) :
  Forall (fun msg => frame_id msg = "" /\ encoding msg = "bgr8")
    (pub_cam_livestream w) ->
  Forall (fun msg => frame_id msg = "" /\ encoding msg = "bgr8")
    (pub_cam_livestream (snd (fire ts w))).
Proof.
  revert w. induction ts as [|t ts IH]; intros w Hw; [done|].
  simpl. unfold bind. destruct t as [th pm [] cn]. simpl.
  assert (Forall (fun msg => frame_id msg = "" /\ encoding msg = "bgr8")
            (pub_cam_livestream (snd (timer_callback w)))) as H1.
  { destruct (timer_callback_publishes w) as [->|[f ->]]; [done|].
    apply Forall_app. split; [done|]. by repeat constructor. }
  destruct (timer_callback w) as [[[]|x] w1]; simpl in *; [by apply IH|done].
Qed.

(** X8. No message on the livestream topic ever carries a sequence
    identifier: in every run from the constructor, with snapshots taken in
    between or not, each livestream message has an empty [frame_id] and the
    encoding [bgr8]. *)
Theorem livestream_messages_unnumbered
    (c : VideoCapture) (wr : bool) (d : gmap string Entry)
    (es : list Event) :
  Forall (fun msg => frame_id msg = "" /\ encoding msg = "bgr8")
    (pub_cam_livestream (snd (spin es (init c wr d)))).
Proof.
  apply (spin_invariant json_settings imencode
           (fun w => Forall (fun msg => frame_id msg = "" /\ encoding msg = "bgr8")
                       (pub_cam_livestream w))); [|by constructor].
  intros e w Hw. destruct e as [m|m|]; simpl.
  - destruct (start_livestream_callback_keeps json_settings m w)
      as (_ & _ & _ & ->). done.
  - destruct (capture_snapshot_callback_keeps m w) as [_ ->]. done.
  - by apply fire_publishes_unnumbered.
Qed.

(** A node whose device is not opened and that has no timer only logs. *)
Lemma spin_unopened (es : list Event) :
  forall w : World,
    opened (cap w) = false -> timers w = [] ->
    exists l, spin es w = (Ok tt, with_logger l w).
Proof.
  induction es as [|e es IH]; intros w Ho Ht.
  - exists (logger w). simpl. unfold ret. by destruct w.
  - rewrite spin_cons. destruct e as [m|m|]; simpl.
    + rewrite start_livestream_callback_closed by done.
      match goal with
      | |- context [spin es ?W] =>
          destruct (IH W) as [l ->]; [done|done|]
      end.
      by exists l.
    + rewrite capture_snapshot_callback_closed by done.
      match goal with
      | |- context [spin es ?W] =>
          destruct (IH W) as [l ->]; [done|done|]
      end.
      by exists l.
    + unfold active_timers. rewrite Ht. simpl. unfold ret. by apply IH.
Qed.

(** X14. When the device could not be opened at construction, the node stays
    alive and inert: whatever messages and ticks arrive, no handler raises,
    nothing is published on either topic, no file is written or removed, no
    timer is created and the counter stays 0. *)
Theorem unopened_device_inert
    (c : VideoCapture) (wr : bool) (d : gmap string Entry)
    (es : list Event) :
  opened c = false ->
  fst (spin es (init c wr d)) = Ok tt
  /\ cap (snd (spin es (init c wr d))) = c
  /\ timers (snd (spin es (init c wr d))) = []
  /\ pub_cam_livestream (snd (spin es (init c wr d))) = []
  /\ pub_cam_snapshot (snd (spin es (init c wr d))) = []
  /\ disk (snd (spin es (init c wr d))) = d
  /\ image_counter (snd (spin es (init c wr d))) = 0.
Proof.
  intros Hc. destruct (spin_unopened es (init c wr d)) as [l ->]; done.
Qed.

End Handlers.

(** ** The pipeline descriptor and the topic names *)

Lemma string_app_assoc (a b c : string) : (a ++ b) ++ c = a ++ (b ++ c).
Proof.
  induction a as [|x a IH]; [reflexivity|].
  change (String x ((a ++ b) ++ c) = String x (a ++ (b ++ c))).
  by rewrite IH.
Qed.

Lemma string_app_nil_r (a : string) : a ++ "" = a.
Proof.
  induction a as [|x a IH]; [reflexivity|].
  change (String x (a ++ "") = String x a). by rewrite IH.
Qed.

Lemma string_app_eq_l (a b : string) : a ++ b = a <-> b = "".
Proof.
  split.
  - intros H. rewrite <- (string_app_nil_r a) in H at 2.
    by apply (inj (String.app a)) in H.
  - intros ->. apply string_app_nil_r.
Qed.

(** X12. The pipeline descriptor depends on its argument and on nothing
    else, and it tells frame rates apart: two calls give the same descriptor
    only for the same frame-rate text, so two settings files give the same
    default descriptor only when their frame rates are equal. *)
Theorem gstreamer_pipeline_inj :
  (forall a b : string, gstreamer_pipeline a = gstreamer_pipeline b -> a = b)
  /\ (forall s1 s2 : Settings,
        gstreamer_pipeline_default s1 = gstreamer_pipeline_default s2 ->
        framerate s1 = framerate s2).
Proof.
  assert (forall a b : string,
            gstreamer_pipeline a = gstreamer_pipeline b -> a = b) as Hinj.
  { intros a b H. unfold gstreamer_pipeline in H.
    do 3 apply (inj (String.app _)) in H.
    apply string_app_inj_r in H.
    apply (inj (String.app _)) in H.
    by apply string_app_inj_r in H. }
  split; [done|].
  intros s1 s2 H. by apply str_inj, Hinj.
Qed.

(** X13. In [main] each trigger topic is the image topic of its mode followed
    by the trigger fragment of the settings: the node listens on the very
    topic it publishes images on exactly when that fragment is empty, and the
    two image topics coincide exactly when their fragments do. *)
Theorem trigger_topics_extend_image_topics (s : TopicSettings) :
  livestream_state_topic (main_topics s)
  = publish_livestream_topic (main_topics s) ++ trigger_topic_livestream s
  /\ snapshot_trigger_topic (main_topics s)
     = publish_snapshot_topic (main_topics s) ++ trigger_topic_snapshot s
  /\ (livestream_state_topic (main_topics s)
      = publish_livestream_topic (main_topics s)
      <-> trigger_topic_livestream s = "")
  /\ (snapshot_trigger_topic (main_topics s)
      = publish_snapshot_topic (main_topics s)
      <-> trigger_topic_snapshot s = "")
  /\ (publish_livestream_topic (main_topics s)
      = publish_snapshot_topic (main_topics s)
      <-> publish_topic_livestream s = publish_topic_snapshot s).
Proof.
  unfold main_topics. simpl.
  generalize (publish_topic_camera s ++ camera_id s). intros base.
  split; [by rewrite string_app_assoc|].
  split; [by rewrite string_app_assoc|].
  split; [|split].
  - rewrite <- string_app_assoc. apply string_app_eq_l.
  - rewrite <- string_app_assoc. apply string_app_eq_l.
  - split; [apply (inj (String.app _)) | by intros ->].
Qed.

(** ** The further theorems at concrete inputs *)


Lemma other_files_untouched_witness :
  let w :=
    init (example_cap 6) true
      {[ "/home/images/notes.txt" := RegularFile [7] ]} in
  (forall i : Z,
     image_counter w - 4 <= i ->
     "/home/images/notes.txt" <> image_path example_settings i)
  /\ disk (snd (spin example_settings example_imencode
                  (repeat (Snapshot_trigger msg_true) 6) w))
       !! "/home/images/notes.txt"
     = disk w !! "/home/images/notes.txt".
Proof.
  intros w.
  assert (forall i : Z,
            image_counter w - 4 <= i ->
            "/home/images/notes.txt" <> image_path example_settings i) as Hp.
  { intros i _ H. vm_compute in H. discriminate H. }
  split; [exact Hp|].
  exact (other_files_untouched example_settings example_imencode
           (repeat (Snapshot_trigger msg_true) 6) w
           "/home/images/notes.txt" Hp).
Defined.

Lemma snapshot_messages_match_files_witness :
  let w :=
    snd (spin example_settings example_imencode [Snapshot_trigger msg_true]
           (init (example_cap 1) true ∅)) in
  (forall p : string, (∅ : gmap string Entry) !! p <> Some Directory)
  /\ pub_cam_snapshot w !! 0%nat
     = Some {| frame_id := "0"; encoding := "bgr8"; pixels := [0] |}
  /\ image_counter w - 4 <= Z.of_nat 0
  /\ disk w !! "/home/images/image0.jpg"
     = Some (RegularFile (example_imencode [0])).
Proof.
  intros w.
  assert (forall p : string, (∅ : gmap string Entry) !! p <> Some Directory)
    as Hd.
  { intros p. by rewrite lookup_empty. }
  assert (pub_cam_snapshot w !! 0%nat
          = Some {| frame_id := "0"; encoding := "bgr8"; pixels := [0] |})
    as Hl by reflexivity.
  assert (image_counter w - 4 <= Z.of_nat 0) as Hi.
  { vm_compute. discriminate. }
  split; [exact Hd|]. split; [exact Hl|]. split; [exact Hi|].
  exact (proj2 (proj2 (snapshot_messages_match_files example_settings
                         example_imencode (example_cap 1) true ∅
                         [Snapshot_trigger msg_true]))
           eq_refl Hd 0%nat _ Hl Hi).
Defined.

Lemma snapshot_restores_livestream_resolution_witness :
  let w := init (example_cap 1) true ∅ in
  opened (cap w) = true
  /\ feed (cap w) = [Some [0]]
  /\ fst (capture_snapshot_callback example_settings example_imencode
            msg_false w) = Ok tt
  /\ cap (snd (capture_snapshot_callback example_settings example_imencode
                 msg_false w))
     = {| opened := true; frame_height := 480; frame_width := 640;
          feed := [] |}.
Proof.
  intros w.
  assert (fst (capture_snapshot_callback example_settings example_imencode
                 msg_false w) = Ok tt) as Hok by reflexivity.
  split; [reflexivity|]. split; [reflexivity|]. split; [exact Hok|].
  exact (snapshot_restores_livestream_resolution example_settings
           example_imencode msg_false w [0] [] eq_refl eq_refl Hok).
Defined.


Lemma snapshot_failed_read_keeps_snapshot_resolution_witness :
  opened (cap (init starved_cap true ∅)) = true
  /\ snd (fst (Cap.read (cap (init starved_cap true ∅)))) = None
  /\ fst (capture_snapshot_callback example_settings example_imencode
            msg_true (init starved_cap true ∅)) = Raise TypeError
  /\ frame_height
       (cap (snd (capture_snapshot_callback example_settings
                    example_imencode msg_true (init starved_cap true ∅))))
     = 1080
  /\ frame_width
       (cap (snd (capture_snapshot_callback example_settings
                    example_imencode msg_true (init starved_cap true ∅))))
     = 1920.
Proof.
  split; [reflexivity|]. split; [reflexivity|].
  pose proof (snapshot_failed_read_keeps_snapshot_resolution example_settings
                example_imencode msg_true (init starved_cap true ∅)
                eq_refl eq_refl)
    as (H1 & H2 & H3 & _).
  split; [exact H1|]. split; [exact H2|exact H3].
Defined.

Lemma livestream_handler_never_raises_witness :
  opened (cap (init (example_cap 0) true ∅)) = true
  /\ data msg_false = false
  /\ exists l,
       logger (snd (start_livestream_callback example_settings msg_false
                      (init (example_cap 0) true ∅)))
       = (logger (init (example_cap 0) true ∅) ++ l
          ++ [(ERROR, "timer was is not defined)")])%list.
Proof.
  split; [reflexivity|]. split; [reflexivity|].
  apply (proj2 (proj2 (livestream_handler_never_raises example_settings
                         msg_false (init (example_cap 0) true ∅))));
    reflexivity.
Defined.

Lemma tick_publishes_one_frame_per_timer_witness :
  let w :=
    snd (spin example_settings example_imencode
           [Livestream_state msg_true; Livestream_state msg_true]
           (init (example_cap 2) true ∅)) in
  opened (cap w) = true
  /\ feed (cap w) = ((Some <$> [[0]; [1]]) ++ [])%list
  /\ length [[0]; [1]] = length (active_timers w)
  /\ pub_cam_livestream (snd (dispatch example_settings example_imencode Tick w))
     = [livestream_image [0]; livestream_image [1]].
Proof.
  intros w.
  assert (opened (cap w) = true) as Ho by reflexivity.
  assert (feed (cap w) = ((Some <$> [[0]; [1]]) ++ [])%list) as Hf
    by reflexivity.
  assert (length [[0]; [1]] = length (active_timers w)) as Hl by reflexivity.
  split; [exact Ho|]. split; [exact Hf|]. split; [exact Hl|].
  rewrite (tick_publishes_one_frame_per_timer example_settings
             example_imencode w [[0]; [1]] [] Ho Hf Hl).
  reflexivity.
Defined.

Lemma tick_starved_raises_witness :
  let w :=
    snd (spin example_settings example_imencode
           [Livestream_state msg_true; Livestream_state msg_true]
           (init (example_cap 1) true ∅)) in
  opened (cap w) = true
  /\ feed (cap w) = ((Some <$> [[0]]) ++ [])%list
  /\ (length [[0]] < length (active_timers w))%nat
  /\ fst (dispatch example_settings example_imencode Tick w) = Raise TypeError
  /\ pub_cam_livestream (snd (dispatch example_settings example_imencode Tick w))
     = (pub_cam_livestream w ++ (livestream_image <$> [[0]]))%list.
Proof.
  intros w.
  assert (opened (cap w) = true) as Ho by reflexivity.
  assert (feed (cap w) = ((Some <$> [[0]]) ++ [])%list) as Hf by reflexivity.
  assert (length [[0]] < length (active_timers w))%nat as Hl
    by (vm_compute; lia).
  split; [exact Ho|]. split; [exact Hf|]. split; [exact Hl|].
  exact (tick_starved_raises example_settings example_imencode w [[0]] []
           Ho Hf Hl (or_introl eq_refl)).
Defined.

Lemma unopened_device_inert_witness :
  opened closed_cap = false
  /\ fst (spin example_settings example_imencode
            [Livestream_state msg_true; Snapshot_trigger msg_true; Tick]
            (init closed_cap true ∅)) = Ok tt
  /\ timers (snd (spin example_settings example_imencode
                    [Livestream_state msg_true; Snapshot_trigger msg_true; Tick]
                    (init closed_cap true ∅))) = [].
Proof.
  split; [reflexivity|].
  pose proof (unopened_device_inert example_settings example_imencode
                closed_cap true ∅
                [Livestream_state msg_true; Snapshot_trigger msg_true; Tick]
                eq_refl) as (H1 & _ & H2 & _).
  split; [exact H1|exact H2].
Defined.
